(** * OpenMediaVault API client: session lifecycle

    A shallow embedding of [custom_components/openmediavault/omv_api.py]
    (class [OpenMediaVaultAPI]) together with the properties of its
    connect / query / disconnect life cycle.

    The class talks to three collaborators: the HTTP transport
    ([requests]), the clock ([time.time]) and the logger.  They are
    modelled by a [world]: the transport and the clock are oracles that
    are consulted in call order, and the world keeps the requests that
    were posted and the log lines that were emitted.  The object itself
    is the record [api].  Methods are computations in a small monad [M]
    whose outcomes are: a normal return, a Python exception that leaves
    the method, or a thread blocked for ever on [Lock.acquire]. *)

From Stdlib Require Import String Ascii List ZArith QArith Bool Lia Lqa.
From Stdlib Require Import DecimalString.
Import ListNotations.
Close Scope Q_scope.
Open Scope string_scope.

(** ** Python values produced by [response.json()] *)

(** The values [json.loads] builds, with [None] as [JNull].  Numbers are
    restricted to integers: the only numeric test of the client is
    [error_code == 5001 or error_code == 5002]. *)
#[warnings="-register-all"]
Inductive json : Type :=
| JNull
| JBool (b : bool)
| JInt (z : Z)
| JString (s : string)
| JList (l : list json)
| JObject (kvs : list (string * json)).

(** Exceptions that can leave a method.  [ConnectionError] stands for
    [requests.exceptions.ConnectionError] and its subclasses, which is
    what the two [except] clauses catch; [TransportError] for every
    other exception a [post] can raise. *)
Inductive exn : Type :=
| ConnectionError (msg : string)  (* requests.exceptions.ConnectionError *)
| TransportError (name : string)  (* any other exception raised by post *)
| JSONDecodeError                 (* response.json() on a non-JSON body *)
| TypeError
| KeyError (key : string)
| AttributeError
| RuntimeError.

Module Py.

(** [bool(v)] *)
Definition truthy (v : json) : bool :=
  match v with
  | JNull => false
  | JBool b => b
  | JInt z => negb (z =? 0)%Z
  | JString s => negb (s =? "")
  | JList l => match l with [] => false | _ => true end
  | JObject kvs => match kvs with [] => false | _ => true end
  end.

(** [v is not None] *)
Definition is_not_none (v : json) : bool :=
  match v with JNull => false | _ => true end.

(** A parsed object is a [dict]; the first binding of a key is the
    value the dict holds for it. *)
Fixpoint lookup (k : string) (kvs : list (string * json)) : option json :=
  match kvs with
  | [] => None
  | (k', v) :: rest => if k' =? k then Some v else lookup k rest
  end.

(** [v[k]] for a string key [k]: a [dict] is searched, [None], booleans
    and integers are not subscriptable, strings and lists want integer
    indices. *)
Definition getitem (v : json) (k : string) : exn + json :=
  match v with
  | JObject kvs =>
      match lookup k kvs with
      | Some x => inr x
      | None => inl (KeyError k)
      end
  | _ => inl TypeError
  end.

(** [v == n] for an [int] literal [n]; [True == 1] and [False == 0]. *)
Definition eq_int (v : json) (n : Z) : bool :=
  match v with
  | JInt z => (z =? n)%Z
  | JBool b => ((if b then 1 else 0) =? n)%Z
  | _ => false
  end.

Definition str_of_Z (z : Z) : string :=
  NilZero.string_of_int (Z.to_int z).

Fixpoint join (sep : string) (l : list string) : string :=
  match l with
  | [] => ""
  | [x] => x
  | x :: rest => x ++ sep ++ join sep rest
  end.

(** [repr(v)].  Strings are quoted without escaping their content. *)
Fixpoint repr (v : json) : string :=
  match v with
  | JNull => "None"
  | JBool true => "True"
  | JBool false => "False"
  | JInt z => str_of_Z z
  | JString s => "'" ++ s ++ "'"
  | JList l => "[" ++ join ", " (map repr l) ++ "]"
  | JObject kvs =>
      "{" ++ join ", "
               (map (fun kv => "'" ++ fst kv ++ "': " ++ repr (snd kv)) kvs)
          ++ "}"
  end.

(** ["%s" % v] *)
Definition str (v : json) : string :=
  match v with
  | JString s => s
  | _ => repr v
  end.

(** [str(e)] for an exception. *)
Definition str_exn (e : exn) : string :=
  match e with
  | ConnectionError msg => msg
  | TransportError name => name
  | JSONDecodeError => "Expecting value"
  | TypeError => "object is not subscriptable"
  | KeyError k => "'" ++ k ++ "'"
  | AttributeError => "'NoneType' object has no attribute 'post'"
  | RuntimeError => "release unlocked lock"
  end.

End Py.

(** ** The world around the client *)

(** [requests.Session()] objects, told apart by creation order. *)
Inductive session : Type := Session (id : nat).

(** What a [post] gives back when it does not raise. *)
Inductive response : Type :=
| NotJson             (* body that json() cannot decode *)
| Json (data : json).

(** The optional [error] argument of [disconnect]: absent, a string, or
    an exception object (always truthy). *)
Inductive err_arg : Type :=
| ErrNone
| ErrStr (s : string)
| ErrExc (e : exn).

Inductive log_level : Type := Error | Warning | Debug.

Inductive log_msg : Type :=
| ConnectionClosed (host : string)
| ErrorWhile (host location : string) (error : err_arg)
| UnableToConnect (host : string) (message : json)
| AuthenticatedFailed (host : string)
| ConnectionErrorMsg (host : string) (api_error : exn)
| Reconnected (host : string)
| ConnectedMsg (host : string)
| QueryMsg (host service method : string) (params options : json)
| QueryResponse (host : string) (data : json)
| SessionExpired (host : string)
| UnableToFetch (host : string).

Record world : Type := mkWorld {
  (** reply of the appliance to the [n]-th post, given URL and body *)
  net : nat -> string -> json -> exn + response;
  (** URL and body of every post so far, most recent first *)
  sent : list (string * json);
  (** value of the [n]-th reading of [time()] *)
  clock : nat -> Q;
  clock_reads : nat;
  sessions_made : nat;
  (** log records so far, most recent first *)
  log : list (log_level * log_msg)
}.

(** ** The object *)

(** The attributes of an [OpenMediaVaultAPI].  [accounting_last_run] is
    assigned by [__init__] and never touched by any method; it is left
    out. *)
Record api : Type := mkApi {
  _host : string;
  _use_ssl : bool;
  _username : string;
  _password : string;
  (** [self.lock]: [true] while the (non-reentrant) [Lock] is held *)
  lock : bool;
  _connection : option session;
  _connected : bool;
  _reconnected : bool;
  _connection_epoch : Q;
  error : option string;
  connection_error_reported : bool
}.

Definition _protocol (s : api) : string :=
  if _use_ssl s then "https" else "http".

Definition _resource (s : api) : string :=
  _protocol s ++ "://" ++ _host s ++ "/rpc.php".

(** [self._connection_retry_sec], assigned once by [__init__]. *)
Definition _connection_retry_sec : Q := 58.

(** [__init__] *)
Definition init (host username password : string) (use_ssl : bool) : api :=
  {| _host := host; _use_ssl := use_ssl;
     _username := username; _password := password;
     lock := false;
     _connection := None;
     _connected := false;
     _reconnected := false;
     _connection_epoch := 0;
     error := None;
     connection_error_reported := false |}.

Definition set_lock (b : bool) (s : api) : api :=
  mkApi (_host s) (_use_ssl s) (_username s) (_password s)
        b (_connection s) (_connected s) (_reconnected s)
        (_connection_epoch s) (error s) (connection_error_reported s).

Definition set_connection (c : option session) (s : api) : api :=
  mkApi (_host s) (_use_ssl s) (_username s) (_password s)
        (lock s) c (_connected s) (_reconnected s)
        (_connection_epoch s) (error s) (connection_error_reported s).

Definition set_connected (b : bool) (s : api) : api :=
  mkApi (_host s) (_use_ssl s) (_username s) (_password s)
        (lock s) (_connection s) b (_reconnected s)
        (_connection_epoch s) (error s) (connection_error_reported s).

Definition set_reconnected (b : bool) (s : api) : api :=
  mkApi (_host s) (_use_ssl s) (_username s) (_password s)
        (lock s) (_connection s) (_connected s) b
        (_connection_epoch s) (error s) (connection_error_reported s).

Definition set_connection_epoch (t : Q) (s : api) : api :=
  mkApi (_host s) (_use_ssl s) (_username s) (_password s)
        (lock s) (_connection s) (_connected s) (_reconnected s)
        t (error s) (connection_error_reported s).

Definition set_error (e : option string) (s : api) : api :=
  mkApi (_host s) (_use_ssl s) (_username s) (_password s)
        (lock s) (_connection s) (_connected s) (_reconnected s)
        (_connection_epoch s) e (connection_error_reported s).

Definition set_connection_error_reported (b : bool) (s : api) : api :=
  mkApi (_host s) (_use_ssl s) (_username s) (_password s)
        (lock s) (_connection s) (_connected s) (_reconnected s)
        (_connection_epoch s) (error s) b.

(** ** Method outcomes *)

Inductive outcome (A : Type) : Type :=
| Ret (a : A) (w : world) (s : api)      (* the method returns [a] *)
| Raise (e : exn) (w : world) (s : api)  (* an exception leaves the method *)
| Deadlock (w : world) (s : api)         (* blocked in Lock.acquire for ever *)
| OutOfFuel (w : world) (s : api).       (* recursion budget of the model *)

Arguments Ret {A} a w s.
Arguments Raise {A} e w s.
Arguments Deadlock {A} w s.
Arguments OutOfFuel {A} w s.

Definition M (A : Type) : Type := world -> api -> outcome A.

Definition ret {A} (a : A) : M A := fun w s => Ret a w s.

Definition bind {A B} (m : M A) (f : A -> M B) : M B :=
  fun w s =>
    match m w s with
    | Ret a w' s' => f a w' s'
    | Raise e w' s' => Raise e w' s'
    | Deadlock w' s' => Deadlock w' s'
    | OutOfFuel w' s' => OutOfFuel w' s'
    end.

Definition raise {A} (e : exn) : M A := fun w s => Raise e w s.

Declare Scope m_scope.
Delimit Scope m_scope with m.
Notation "x <- m ;; k" := (bind m (fun x => k))
  (at level 61, m at next level, right associativity) : m_scope.
Notation "m ;; k" := (bind m (fun _ => k))
  (at level 61, right associativity) : m_scope.
Open Scope m_scope.

(** [try: body except requests.exceptions.ConnectionError as e: handler] *)
Definition try_except {A} (body : M A) (handler : exn -> M A) : M A :=
  fun w s =>
    match body w s with
    | Raise (ConnectionError msg) w' s' => handler (ConnectionError msg) w' s'
    | o => o
    end.

Definition final_world {A} (o : outcome A) : world :=
  match o with
  | Ret _ w _ | Raise _ w _ | Deadlock w _ | OutOfFuel w _ => w
  end.

Definition final_api {A} (o : outcome A) : api :=
  match o with
  | Ret _ _ s | Raise _ _ s | Deadlock _ s | OutOfFuel _ s => s
  end.

(** ** Primitive steps *)

Definition self : M api := fun w s => Ret s w s.

Definition update (f : api -> api) : M unit := fun w s => Ret tt w (f s).

Definition lift (r : exn + json) : M json :=
  match r with
  | inl e => raise e
  | inr v => ret v
  end.

Definition getitem (v : json) (k : string) : M json := lift (Py.getitem v k).

(** [time()] *)
Definition time : M Q :=
  fun w s =>
    Ret (clock w (clock_reads w))
        (mkWorld (net w) (sent w) (clock w) (S (clock_reads w))
                 (sessions_made w) (log w))
        s.

(** [requests.Session()] *)
Definition new_session : M session :=
  fun w s =>
    Ret (Session (sessions_made w))
        (mkWorld (net w) (sent w) (clock w) (clock_reads w)
                 (S (sessions_made w)) (log w))
        s.

(** [_LOGGER.<level>(...)] *)
Definition logger (l : log_level) (m : log_msg) : M unit :=
  fun w s =>
    Ret tt
        (mkWorld (net w) (sent w) (clock w) (clock_reads w)
                 (sessions_made w) ((l, m) :: log w))
        s.

(** [self._connection.post(url, data=json.dumps(body))] *)
Definition post (url : string) (body : json) : M response :=
  fun w s =>
    match _connection s with
    | None => Raise AttributeError w s
    | Some _ =>
        let w' := mkWorld (net w) ((url, body) :: sent w) (clock w)
                          (clock_reads w) (sessions_made w) (log w) in
        match net w (length (sent w)) url body with
        | inl e => Raise e w' s
        | inr r => Ret r w' s
        end
    end.

(** [response.json()] *)
Definition response_json (r : response) : M json :=
  match r with
  | NotJson => raise JSONDecodeError
  | Json data => ret data
  end.

(** [self.lock.acquire()] on a [threading.Lock]: blocks while held. *)
Definition lock_acquire : M unit :=
  fun w s => if lock s then Deadlock w s else Ret tt w (set_lock true s).

(** [self.lock.release()]: releasing an unlocked lock is an error. *)
Definition lock_release : M unit :=
  fun w s => if lock s then Ret tt w (set_lock false s) else Raise RuntimeError w s.

(** ** Methods of [OpenMediaVaultAPI] *)

(** [has_reconnected] *)
Definition has_reconnected : M bool :=
  s <- self ;;
  if _reconnected s then
    update (set_reconnected false) ;;
    ret true
  else
    ret false.

(** [disconnect] *)
Definition disconnect (location : string) (error : err_arg) : M unit :=
  let error :=
    match error with
    | ErrNone => ErrStr "unknown"
    | ErrStr "" => ErrStr "unknown"
    | e => e
    end in
  s <- self ;;
  (if negb (connection_error_reported s) then
     (if location =? "unknown" then
        logger Error (ConnectionClosed (_host s))
      else
        logger Error (ErrorWhile (_host s) location error)) ;;
     update (set_connection_error_reported true)
   else
     ret tt) ;;
  update (set_reconnected false) ;;
  update (set_connected false) ;;
  update (set_connection None) ;;
  update (set_connection_epoch 0).

(** [error_to_strings] *)
Definition error_to_strings (error : string) : M unit :=
  update (set_error (Some "cannot_connect")) ;;
  if error =? "Incorrect username or password" then
    update (set_error (Some "wrong_login"))
  else
    ret tt.

(** The body that [connect] posts. *)
Definition login_request (s : api) : json :=
  JObject [ ("service", JString "session");
            ("method", JString "login");
            ("params", JObject [ ("username", JString (_username s));
                                 ("password", JString (_password s)) ]) ].

(** [connect].  The [try] block either leaves the method with a value
    ([Some b], one of the [return False] statements) or falls through to
    the [else] clause ([None]). *)
Definition connect : M bool :=
  update (set_error (Some "")) ;;
  update (set_connected false) ;;
  now <- time ;;
  update (set_connection_epoch now) ;;
  c <- new_session ;;
  update (set_connection (Some c)) ;;
  lock_acquire ;;
  r <- try_except
         (s <- self ;;
          response <- post (_resource s) (login_request s) ;;
          data <- response_json response ;;
          err <- getitem data "error" ;;
          if Py.is_not_none err then
            s <- self ;;
            (if negb (connection_error_reported s) then
               err <- getitem data "error" ;;
               message <- getitem err "message" ;;
               logger Error (UnableToConnect (_host s) message) ;;
               update (set_connection_error_reported true)
             else
               ret tt) ;;
            err <- getitem data "error" ;;
            message <- getitem err "message" ;;
            error_to_strings (Py.str message) ;;
            update (set_connection None) ;;
            lock_release ;;
            ret (Some false)
          else
            resp <- getitem data "response" ;;
            authenticated <- getitem resp "authenticated" ;;
            if negb (Py.truthy authenticated) then
              s <- self ;;
              logger Error (AuthenticatedFailed (_host s)) ;;
              error_to_strings "" ;;
              update (set_connection None) ;;
              lock_release ;;
              ret (Some false)
            else
              ret None)
         (fun api_error =>
            s <- self ;;
            logger Error (ConnectionErrorMsg (_host s) api_error) ;;
            error_to_strings (Py.str_exn api_error) ;;
            update (set_connection None) ;;
            lock_release ;;
            ret (Some false)) ;;
  match r with
  | Some b => ret b
  | None =>
      s <- self ;;
      (if connection_error_reported s then
         logger Warning (Reconnected (_host s)) ;;
         update (set_connection_error_reported false)
       else
         logger Debug (ConnectedMsg (_host s))) ;;
      update (set_connected true) ;;
      update (set_reconnected true) ;;
      lock_release ;;
      s <- self ;;
      ret (_connected s)
  end.

(** [connection_check] *)
Definition connection_check : M bool :=
  s <- self ;;
  if negb (_connected s) || match _connection s with None => true | Some _ => false end then
    now <- time ;;
    if negb (Qle_bool (_connection_epoch s) (now - _connection_retry_sec)) then
      ret false
    else
      ok <- connect ;;
      if negb ok then ret false else ret true
  else
    ret true.

(** [connected] *)
Definition connected : M bool :=
  s <- self ;;
  ret (_connected s).

(** The body that [query] posts. *)
Definition query_request (service method : string) (params options : json) : json :=
  JObject [ ("service", JString service);
            ("method", JString method);
            ("params", params);
            ("options", options) ].

Definition default_params (params : json) : json :=
  if negb (Py.truthy params) then JObject [] else params.

Definition default_options (options : json) : json :=
  if negb (Py.truthy options) then JObject [ ("updatelastaccess", JBool false) ]
  else options.

(** [query].  [None] arguments and a [None] result are [JNull].  The
    method calls itself at line 218: [query_body] is the method body
    with that call as [recur], and [query_rec] ties the knot with a
    bound [fuel] on the depth of the recursion.  The [try] block yields
    [inl data] when it falls through to line 226 and the handler yields
    [inr v] for its [return v]. *)
Definition query_body (recur : string -> string -> json -> json -> M json)
  (service method : string) (params options : json) : M json :=
  ok <- connection_check ;;
  if negb ok then ret JNull else
  let params := default_params params in
  let options := default_options options in
  lock_acquire ;;
  r <- try_except
         (s <- self ;;
          logger Debug (QueryMsg (_host s) service method params options) ;;
          response <- post (_resource s)
                           (query_request service method params options) ;;
          data <- response_json response ;;
          logger Debug (QueryResponse (_host s) data) ;;
          (if Py.is_not_none data then
             err <- getitem data "error" ;;
             if Py.is_not_none err then
               err <- getitem data "error" ;;
               error_code <- getitem err "code" ;;
               if Py.eq_int error_code 5001 || Py.eq_int error_code 5002 then
                 logger Debug (SessionExpired (_host s)) ;;
                 ok <- connect ;;
                 if ok then
                   recur service method params options ;;
                   ret tt
                 else ret tt
               else ret tt
             else ret tt
           else ret tt) ;;
          ret (inl data))
         (fun api_error =>
            s <- self ;;
            logger Warning (UnableToFetch (_host s)) ;;
            disconnect "query" (ErrExc api_error) ;;
            lock_release ;;
            ret (inr JNull)) ;;
  match r with
  | inr v => ret v
  | inl data =>
      lock_release ;;
      getitem data "response"
  end.

Fixpoint query_rec (fuel : nat) : string -> string -> json -> json -> M json :=
  match fuel with
  | O => fun _ _ _ _ w s => OutOfFuel w s
  | S fuel' => query_body (query_rec fuel')
  end.

(** The method as callers invoke it.  One level of recursion budget is
    all it ever uses, see [query_rec_fuel]. *)
Definition query : string -> string -> json -> json -> M json := query_rec 1.

(** ** Calls from the outside *)

Inductive call : Type :=
| CallHasReconnected
| CallConnectionCheck
| CallDisconnect (location : string) (error : err_arg)
| CallConnect
| CallConnected
| CallQuery (service method : string) (params options : json).

Inductive value : Type :=
| VNone
| VBool (b : bool)
| VJson (j : json).

Definition fmap {A B} (f : A -> B) (m : M A) : M B :=
  a <- m ;; ret (f a).

Definition run_call (c : call) : M value :=
  match c with
  | CallHasReconnected => fmap VBool has_reconnected
  | CallConnectionCheck => fmap VBool connection_check
  | CallDisconnect location error => fmap (fun _ => VNone) (disconnect location error)
  | CallConnect => fmap VBool connect
  | CallConnected => fmap VBool connected
  | CallQuery service method params options =>
      fmap VJson (query service method params options)
  end.

(** What the caller of one method observes.  A call never runs out of
    recursion budget ([run_call_fuel]), so [Blocked] stands for a call
    stuck in [Lock.acquire]. *)
Inductive observed : Type :=
| Returned (v : value)
| Raised (e : exn)
| Blocked.

Definition observe (o : outcome value) : observed :=
  match o with
  | Ret v _ _ => Returned v
  | Raise e _ _ => Raised e
  | Deadlock _ _ | OutOfFuel _ _ => Blocked
  end.

(** A caller that issues the calls one after the other, and carries on
    after an exception; a blocked call never comes back, so nothing
    after it runs. *)
Fixpoint run_calls (cs : list call) (w : world) (s : api)
  : list observed * world * api :=
  match cs with
  | [] => ([], w, s)
  | c :: rest =>
      match run_call c w s with
      | Ret v w' s' =>
          let '(obs, w'', s'') := run_calls rest w' s' in
          (Returned v :: obs, w'', s'')
      | Raise e w' s' =>
          let '(obs, w'', s'') := run_calls rest w' s' in
          (Raised e :: obs, w'', s'')
      | Deadlock w' s' | OutOfFuel w' s' => ([Blocked], w', s')
      end
  end.

(** ** Scripted worlds for concrete runs *)

Definition scripted (replies : list (exn + response)) (times : list Q) : world :=
  {| net := fun n _ _ => nth n replies (inl (ConnectionError "Connection refused"));
     sent := [];
     clock := fun n => nth n times (last times 0%Q);
     clock_reads := 0;
     sessions_made := 0;
     log := [] |}.

Definition envelope (err response : json) : json :=
  JObject [ ("response", response); ("error", err) ].

Definition error_object (code : Z) (message : string) : json :=
  JObject [ ("code", JInt code); ("message", JString message) ].

Definition login_ok : exn + response :=
  inr (Json (envelope JNull (JObject [ ("authenticated", JBool true);
                                        ("username", JString "admin") ]))).

Definition omv : api := init "nas.local" "admin" "openmediavault" false.

(** ** Observations on states and logs *)

(** [connected == true] implies a session object is held. *)
Definition session_invariant (s : api) : Prop :=
  _connected s = true -> _connection s <> None.

Definition is_success (m : log_msg) : bool :=
  match m with
  | Reconnected _ | ConnectedMsg _ => true
  | _ => false
  end.

(** Number of completed logins: each one writes "reconnected" or
    "connected" to the log. *)
Fixpoint successes (l : list (log_level * log_msg)) : nat :=
  match l with
  | [] => 0
  | (_, m) :: rest => (if is_success m then 1 else 0) + successes rest
  end.

(** Number of "unable to connect" lines. *)
Fixpoint unable_lines (l : list (log_level * log_msg)) : nat :=
  match l with
  | [] => 0
  | (_, UnableToConnect _ _) :: rest => S (unable_lines rest)
  | _ :: rest => unable_lines rest
  end.

(** Number of lines logged at level [Error]. *)
Fixpoint error_lines (l : list (log_level * log_msg)) : nat :=
  match l with
  | [] => 0
  | (Error, _) :: rest => S (error_lines rest)
  | _ :: rest => error_lines rest
  end.

(** The login reply that [connect] accepts: an envelope with a null
    [error] and a truthy [response.authenticated]. *)
Definition login_accepted (reply : exn + response) : bool :=
  match reply with
  | inr (Json data) =>
      match Py.getitem data "error" with
      | inr JNull =>
          match Py.getitem data "response" with
          | inr resp =>
              match Py.getitem resp "authenticated" with
              | inr authenticated => Py.truthy authenticated
              | inl _ => false
              end
          | inl _ => false
          end
      | _ => false
      end
  | _ => false
  end.

(** The reply the appliance gives to the next post. *)
Definition next_reply (w : world) (url : string) (body : json) : exn + response :=
  net w (length (sent w)) url body.

(** Entry part of [connect], up to [self.lock.acquire()]. *)
Definition connect_entry_world (w : world) : world :=
  mkWorld (net w) (sent w) (clock w) (S (clock_reads w))
          (S (sessions_made w)) (log w).

Definition connect_entry_api (w : world) (s : api) : api :=
  set_connection (Some (Session (sessions_made w)))
    (set_connection_epoch (clock w (clock_reads w))
       (set_connected false (set_error (Some "") s))).

(** The clock reading consumed by one call of [time()]. *)
Definition tick (w : world) : world :=
  mkWorld (net w) (sent w) (clock w) (S (clock_reads w))
          (sessions_made w) (log w).

Definition out_of_fuel {A} (o : outcome A) : bool :=
  match o with OutOfFuel _ _ => true | _ => false end.

(** The one message that [error_to_strings] recognises. *)
Definition login_message : string := "Incorrect username or password".

(** [_connected] and [_connection] change only where [connect] is
    entered (it creates a session object) or [disconnect] clears both. *)
Definition session_kept_or_cleared (before after : api) : Prop :=
  (_connected after = _connected before /\
   _connection after = _connection before) \/
  (_connected after = false /\ _connection after = None).

(** The address and body of the one request a [query] is meant to post. *)
Definition sent_by_query (service method : string) (params options : json)
  (s : api) : string * json :=
  (_resource s,
   query_request service method
     (if Py.truthy params then params else JObject [])
     (if Py.truthy options then options
      else JObject [ ("updatelastaccess", JBool false) ])).

(** A request body that is a login. *)
Definition is_login_body (body : json) : bool :=
  match Py.getitem body "service", Py.getitem body "method" with
  | inr (JString service), inr (JString method) =>
      (service =? "session") && (method =? "login")
  | _, _ => false
  end.

(** The envelope of the wire protocol: an object with [error] and
    [response]; a non-null [error] carries [code] and [message]; the
    [response] to an accepted login carries [authenticated]. *)
Definition well_formed_envelope (login : bool) (data : json) : bool :=
  match Py.getitem data "error", Py.getitem data "response" with
  | inr err, inr resp =>
      if Py.is_not_none err then
        match Py.getitem err "code", Py.getitem err "message" with
        | inr _, inr _ => true
        | _, _ => false
        end
      else if login then
        match Py.getitem resp "authenticated" with
        | inr _ => true
        | inl _ => false
        end
      else true
  | _, _ => false
  end.

Definition orderly_reply (login : bool) (reply : exn + response) : bool :=
  match reply with
  | inl (ConnectionError _) => true
  | inl _ => false
  | inr NotJson => false
  | inr (Json data) => well_formed_envelope login data
  end.

(** A transport that either raises a connection error or answers with
    a well-formed envelope. *)
Definition orderly_transport (w : world) : Prop :=
  forall n url body, orderly_reply (is_login_body body) (net w n url body) = true.

(** The two codes that [query] treats as an expired session. *)
Definition session_expired (code : json) : bool :=
  Py.eq_int code 5001 || Py.eq_int code 5002.

(** A login reply that is an envelope with a non-null [error]. *)
Definition envelope_error (reply : exn + response) : bool :=
  match reply with
  | inr (Json data) =>
      match Py.getitem data "error" with
      | inr err => Py.is_not_none err
      | inl _ => false
      end
  | _ => false
  end.

(** The replies to the logins of [n] consecutive [connect] calls, each of
    which posts once. *)
Definition streak_replies (n : nat) (w : world) (s : api)
  : list (exn + response) :=
  map (fun i => net w (length (sent w) + i) (_resource s) (login_request s))
      (seq 0 n).

(** ** Worlds and runs used as examples *)

Definition expired_reply (code : Z) : exn + response :=
  inr (Json (envelope (error_object code "Session expired") JNull)).

Definition info_reply : exn + response :=
  inr (Json (envelope JNull (JObject [ ("version", JString "5.6") ]))).

(** An appliance that accepts the login, answers the first query with
    an expired-session error, and would accept a second login and answer
    a second query. *)
Definition expiry_world (code : Z) : world :=
  scripted [login_ok; expired_reply code; login_ok; info_reply] [1000%Q].

Definition expiry_run (code : Z) : list observed * world * api :=
  run_calls [CallConnect; CallQuery "system" "info" JNull JNull]
            (expiry_world code) omv.

(** An appliance that accepts every login and answers every other
    request with the same payload. *)
Definition appliance : world :=
  {| net := fun _ _ body => if is_login_body body then login_ok else info_reply;
     sent := [];
     clock := fun n => (1000 + inject_Z (Z.of_nat n))%Q;
     clock_reads := 0;
     sessions_made := 0;
     log := [] |}.

Definition denied : exn + response :=
  inr (Json (envelope (error_object 1 "Permission denied") JNull)).

Definition bad_login : exn + response :=
  inr (Json (envelope (error_object 1 "Incorrect username or password") JNull)).

Definition denied_twice : list observed * world * api :=
  run_calls (repeat CallConnect 2)
            (scripted [denied; denied] [1000%Q; 1060%Q]) omv.

Definition logged_in : world * api :=
  (final_world (connect appliance omv), final_api (connect appliance omv)).

(** ** Further observations used by the life-cycle properties *)

(** A reply that does not carry one of the expired-session codes. *)
Definition expiry_free_reply (reply : exn + response) : bool :=
  match reply with
  | inr (Json data) =>
      match Py.getitem data "error" with
      | inr err =>
          match Py.getitem err "code" with
          | inr code => negb (session_expired code)
          | inl _ => true
          end
      | inl _ => true
      end
  | _ => true
  end.

(** An [error] field that [query] passes over: null, or an object
    whose code is not one of the expired-session codes. *)
Definition benign_error (err : json) : bool :=
  if Py.is_not_none err then
    match Py.getitem err "code" with
    | inr code => negb (session_expired code)
    | inl _ => false
    end
  else true.

(** An appliance that never reports an expired session. *)
Definition never_expires (w : world) : Prop :=
  forall n url body, expiry_free_reply (net w n url body) = true.

Definition is_returned (o : observed) : bool :=
  match o with Returned _ => true | _ => false end.

(** The lock is held and the client is marked disconnected: the state
    an exception inside [connect]'s critical section leaves behind. *)
Definition wedged (s : api) : Prop :=
  lock s = true /\ _connected s = false.

(** A reply that [query] and [connect] do not handle: an exception
    other than a connection error, or a body that is not JSON. *)
Definition unhandled_reply (reply : exn + response) : bool :=
  match reply with
  | inl (ConnectionError _) => false
  | inl _ => true
  | inr NotJson => true
  | inr (Json _) => false
  end.

(** The most requests one call can post: a [query] may log in first. *)
Definition max_posts (c : call) : nat :=
  match c with
  | CallQuery _ _ _ _ => 2
  | CallConnect | CallConnectionCheck => 1
  | _ => 0
  end.

(** The fields [__init__] takes from its arguments. *)
Definition configuration (s : api) : string * bool * string * string :=
  (_host s, _use_ssl s, _username s, _password s).

(** The line a successful [connect] logs. *)
Definition success_line (s : api) : log_level * log_msg :=
  if connection_error_reported s then (Warning, Reconnected (_host s))
  else (Debug, ConnectedMsg (_host s)).

(** The lines [disconnect] logs: one, unless a failure was already
    reported. *)
Definition disconnect_lines (location : string) (error : err_arg) (s : api)
  : list (log_level * log_msg) :=
  if connection_error_reported s then []
  else if location =? "unknown" then [(Error, ConnectionClosed (_host s))]
  else [(Error, ErrorWhile (_host s) location
                  match error with
                  | ErrNone => ErrStr "unknown"
                  | ErrStr "" => ErrStr "unknown"
                  | e => e
                  end)].

(** An appliance that refuses every connection. *)
Definition unreachable : world := scripted [] [1000%Q].

(** An appliance whose login page is not JSON. *)
Definition garbled : world := scripted [inr NotJson] [1000%Q].

(** A client logged in to an appliance that then reports an expired
    session. *)
Definition expiring : world * api :=
  (final_world (connect (expiry_world 5001) omv),
   final_api (connect (expiry_world 5001) omv)).

(** A client logged in to an appliance that then drops off the network. *)
Definition dropping : world * api :=
  (final_world (connect (scripted [login_ok] [1000%Q]) omv),
   final_api (connect (scripted [login_ok] [1000%Q]) omv)).

(** A client whose login was just refused by the appliance. *)
Definition refused : world * api :=
  (final_world (connect (scripted [denied] [1000%Q]) omv),
   final_api (connect (scripted [denied] [1000%Q]) omv)).

(** A client logged in to an appliance that goes on with the given
    replies. *)
Definition logged_in_to (replies : list (exn + response)) : world * api :=
  (final_world (connect (scripted (login_ok :: replies) [1000%Q]) omv),
   final_api (connect (scripted (login_ok :: replies) [1000%Q]) omv)).

Definition polling : list call :=
  [ CallQuery "system" "info" JNull JNull;
    CallHasReconnected;
    CallConnected;
    CallQuery "filesystems" "list" (JObject []) JNull ].

(** ** Proof automation *)

Ltac step :=
  match goal with
  | |- context [match ?x with _ => _ end] =>
      lazymatch x with
      | context [match _ with _ => _ end] => fail
      | _ => destruct x eqn:?
      end
  end.

Ltac unfold_steps :=
  unfold error_to_strings;
  unfold bind, try_except, update, time, new_session, self, logger, post,
    response_json, getitem, lift, lock_acquire, lock_release, raise, ret.

(** The address and the login body do not depend on the mutable fields. *)
Ltac norm_self :=
  repeat match goal with
    | |- context [_resource (?f ?x ?s)] =>
        change (_resource (f x s)) with (_resource s)
    | |- context [login_request (?f ?x ?s)] =>
        change (login_request (f x s)) with (login_request s)
    end.

Ltac fields :=
  cbn [_host _use_ssl _username _password lock _connection _connected
       _reconnected _connection_epoch error connection_error_reported
       set_lock set_connection set_connected set_reconnected
       set_connection_epoch set_error set_connection_error_reported
       net sent clock clock_reads sessions_made log negb].

(** ** Basic facts about the lock *)

Lemma connect_locked w s :
  lock s = true ->
  connect w s = Deadlock (connect_entry_world w) (connect_entry_api w s).
Proof.
  intros L. unfold connect, bind, update, time, new_session, lock_acquire.
  simpl. rewrite L. reflexivity.
Qed.

(** The call that [query] makes to itself is never reached. *)
Lemma query_body_recur r1 r2 service method params options w s :
  query_body r1 service method params options w s =
  query_body r2 service method params options w s.
Proof.
  unfold query_body, bind, try_except, self, logger, post, response_json,
    getitem, lift, lock_acquire, lock_release, raise, ret.
  destruct (connection_check w s) as [ok w1 s1| | |]; try reflexivity.
  destruct ok; cbn [negb]; try reflexivity.
  destruct (lock s1) eqn:L; try reflexivity.
  cbn [_connection set_lock lock].
  repeat (step; try reflexivity; try discriminate).
  all: try (rewrite connect_locked in * by reflexivity; try discriminate).
Qed.

(** The recursion budget is never used up: the recursive call sits
    behind a [connect] that is entered with the lock held. *)
Lemma query_rec_fuel n service method params options w s :
  query_rec (S n) service method params options w s =
  query service method params options w s.
Proof. apply query_body_recur. Qed.

Ltac crush_outcome :=
  repeat (cbn; try reflexivity; try discriminate; try step).

Lemma connect_fuel w s : out_of_fuel (connect w s) = false.
Proof.
  unfold connect. unfold_steps. crush_outcome.
Qed.

(** ** [disconnect] *)

Lemma connection_check_attempts w s :
  (_connected s = false \/ _connection s = None) ->
  (_connection_epoch s <= clock w (clock_reads w) - _connection_retry_sec)%Q ->
  connection_check w s = connect (tick w) s.
Proof.
  intros Hd Hc. unfold connection_check, bind, self, time.
  assert (G : negb (_connected s)
              || match _connection s with None => true | Some _ => false end
              = true).
  { destruct Hd as [-> | ->]; [reflexivity | apply orb_true_r]. }
  rewrite G.
  apply Qle_bool_iff in Hc. rewrite Hc. cbn [negb]. fold (tick w).
  destruct (connect (tick w) s) as [[|] ? ?| | |]; reflexivity.
Qed.

Lemma disconnect_returns location err w s :
  exists w' s',
    disconnect location err w s = Ret tt w' s' /\
    _connected s' = false /\
    _connection s' = None /\
    _reconnected s' = false /\
    _connection_epoch s' = 0%Q /\
    connection_error_reported s' = true /\
    lock s' = lock s /\
    net w' = net w /\ sent w' = sent w /\
    sessions_made w' = sessions_made w.
Proof.
  unfold disconnect, bind, self, update, logger, ret.
  destruct (connection_error_reported s) eqn:E; cbn [negb];
    [| destruct (location =? "unknown")];
    (eexists; eexists; split; [reflexivity |]);
    fields; rewrite ?E; repeat split.
Qed.

(** C8: whatever its arguments and whatever the state before,
    [disconnect] returns and leaves [_connected = False],
    [_connection = None], [_reconnected = False] and
    [_connection_epoch = 0]; with the epoch at zero, a following
    [connection_check] is past the cooldown window and goes straight to
    [connect] as soon as the clock reads at least 58 seconds. *)
Theorem disconnect_clears location err w s :
  exists w' s',
    disconnect location err w s = Ret tt w' s' /\
    _connected s' = false /\
    _connection s' = None /\
    _reconnected s' = false /\
    _connection_epoch s' = 0%Q /\
    ((_connection_retry_sec <= clock w' (clock_reads w'))%Q ->
     connection_check w' s' = connect (tick w') s').
Proof.
  destruct (disconnect_returns location err w s)
    as (w' & s' & E & C & N & R & T & _).
  exists w', s'. repeat (split; [assumption |]).
  intros H. apply connection_check_attempts; [left; exact C |].
  rewrite T. lra.
Qed.


(** ** [connection_check] *)

(** C5: a [connection_check] on a client that is not connected (or has
    no session), fewer than 58 seconds after [_connection_epoch],
    returns [False] and touches nothing but the clock: no [connect], no
    post, no log line.  On a connected client with a session it returns
    [True] and touches nothing at all.  In the remaining case it is
    [connect], and returns what [connect] returns. *)
Theorem connection_check_cases w s :
  let now := clock w (clock_reads w) in
  ((_connected s = false \/ _connection s = None) ->
   (now - _connection_epoch s < 58)%Q ->
   connection_check w s = Ret false (tick w) s) /\
  (_connected s = true -> _connection s <> None ->
   connection_check w s = Ret true w s) /\
  ((_connected s = false \/ _connection s = None) ->
   (58 <= now - _connection_epoch s)%Q ->
   connection_check w s = connect (tick w) s).
Proof.
  intros now. split; [| split].
  - intros Hd Hc. unfold connection_check, bind, self, time, ret.
    assert (G : negb (_connected s)
                || match _connection s with None => true | Some _ => false end
                = true).
    { destruct Hd as [-> | ->]; [reflexivity | apply orb_true_r]. }
    rewrite G. fold now. fold (tick w).
    destruct (Qle_bool (_connection_epoch s) (now - _connection_retry_sec)) eqn:E.
    + apply Qle_bool_iff in E. unfold _connection_retry_sec in E. lra.
    + reflexivity.
  - intros Hc Hs. unfold connection_check, bind, self, ret.
    rewrite Hc. destruct (_connection s); [reflexivity | congruence].
  - intros Hd Hc. apply connection_check_attempts; [exact Hd |].
    fold now. unfold _connection_retry_sec. lra.
Qed.

(** ** [connect]: classification of refused logins *)

Lemma str_of_Z_not_login z : Py.str_of_Z z <> login_message.
Proof.
  unfold Py.str_of_Z, login_message.
  destruct (Z.to_int z) as [u | u]; cbn; [destruct u | ]; discriminate.
Qed.

(** ["%s" % v] spells the login message only when [v] is that string. *)
Lemma str_is_login v :
  Py.str v = login_message <-> v = JString login_message.
Proof.
  split; [| intros ->; reflexivity].
  destruct v as [ | [|] | z | t | l | kvs]; cbn; try discriminate.
  - intros H. exfalso. exact (str_of_Z_not_login z H).
  - intros ->. reflexivity.
Qed.

Lemma eqb_login_message v :
  (Py.str v =? login_message) = true <-> v = JString login_message.
Proof. rewrite String.eqb_eq. apply str_is_login. Qed.

Lemma classify_message message :
  let e := if Py.str message =? login_message
           then Some "wrong_login" else Some "cannot_connect" in
  (e = Some "wrong_login" <-> message = JString login_message) /\
  (message <> JString login_message -> e = Some "cannot_connect").
Proof.
  cbv zeta. destruct (Py.str message =? login_message) eqn:E.
  - apply eqb_login_message in E. subst message.
    split; [split; reflexivity | congruence].
  - split; [split; [discriminate |] | reflexivity].
    intros H. apply eqb_login_message in H. congruence.
Qed.


(** C7: when the login reply is an envelope whose [error] is not null,
    [connect] returns [False] with the session dropped, and [error] is
    ["wrong_login"] exactly when the message is "Incorrect username or
    password" and ["cannot_connect"] for every other message; when the
    envelope has a null [error] and a falsy [authenticated], [connect]
    returns [False] with the session dropped and ["cannot_connect"]. *)
Theorem connect_refused w s data :
  lock s = false ->
  net w (length (sent w)) (_resource s) (login_request s) = inr (Json data) ->
  (forall err message,
      Py.getitem data "error" = inr err -> err <> JNull ->
      Py.getitem err "message" = inr message ->
      exists w' s',
        connect w s = Ret false w' s' /\
        _connection s' = None /\ _connected s' = false /\
        (error s' = Some "wrong_login" <->
         message = JString "Incorrect username or password") /\
        (message <> JString "Incorrect username or password" ->
         error s' = Some "cannot_connect")) /\
  (forall resp authenticated,
      Py.getitem data "error" = inr JNull ->
      Py.getitem data "response" = inr resp ->
      Py.getitem resp "authenticated" = inr authenticated ->
      Py.truthy authenticated = false ->
      exists w' s',
        connect w s = Ret false w' s' /\
        _connection s' = None /\ _connected s' = false /\
        error s' = Some "cannot_connect").
Proof.
  intros L N. split.
  - intros err message He Hn Hm.
    assert (Hnn : Py.is_not_none err = true) by (destruct err; try reflexivity; congruence).
    unfold connect. unfold_steps. fields. rewrite L. fields.
    unfold _resource, _protocol, login_request in *. fields.
    rewrite N. fields. rewrite He. fields. rewrite Hnn. fields.
    fold login_message.
    pose proof (classify_message message) as C. cbv zeta in C.
    destruct (connection_error_reported s); fields;
      repeat (first [rewrite He | rewrite Hm]; fields);
      destruct (Py.str message =? login_message) eqn:E;
      (eexists; eexists; split; [reflexivity |]);
      fields; (split; [reflexivity |]); (split; [reflexivity |]); exact C.
  - intros resp authenticated He Hr Ha Ht.
    unfold connect. unfold_steps. fields. rewrite L. fields.
    unfold _resource, _protocol, login_request in *. fields.
    rewrite N. fields. rewrite He. cbn [Py.is_not_none]. fields.
    rewrite Hr. fields. rewrite Ha. fields. rewrite Ht. fields.
    cbn [String.eqb Ascii.eqb]. 
    eexists; eexists; split; [reflexivity |]. fields. repeat split.
Qed.

(** ** Flags across calls *)

Lemma connect_flags w s :
  let o := connect w s in
  successes (log w) <= successes (log (final_world o)) /\
  (successes (log (final_world o)) = successes (log w) ->
   (_reconnected s = false -> _reconnected (final_api o) = false) /\
   (connection_error_reported s = true ->
    connection_error_reported (final_api o) = true)).
Proof.
  unfold connect. unfold_steps.
  repeat (cbn -[Nat.add]; try step); (split; [lia | intros H; try lia; split; congruence]).
Qed.

Lemma connection_check_flags w s :
  let o := connection_check w s in
  successes (log w) <= successes (log (final_world o)) /\
  (successes (log (final_world o)) = successes (log w) ->
   (_reconnected s = false -> _reconnected (final_api o) = false) /\
   (connection_error_reported s = true ->
    connection_error_reported (final_api o) = true)).
Proof.
  unfold connection_check, bind, self, time, ret.
  destruct (negb (_connected s) || _); [| cbn; auto].
  destruct (negb _); [cbn; auto |].
  pose proof (connect_flags (tick w) s) as H. cbv zeta in H. unfold tick in H.
  destruct (connect _ s) as [[|] ? ?| | |]; exact H.
Qed.

(** Case analysis of a [query]: first the outcome of
    [connection_check], then every branch of the exchange.  The nested
    [connect] always meets a held lock. *)
Ltac query_unfold w s CC :=
  unfold query, query_rec, query_body, disconnect;
  unfold bind, try_except, self, logger, post, response_json, getitem, lift,
    lock_acquire, lock_release, update, raise, ret;
  change ("query" =? "unknown") with false;
  destruct (connection_check w s) as [[|] ?w ?s| ? ?w ?s| ?w ?s | ?w ?s] eqn:CC;
  cbn [negb].

Ltac query_steps :=
  repeat first [ rewrite connect_locked by reflexivity;
                 unfold connect_entry_api, connect_entry_world
               | progress fields
               | progress norm_self
               | step ].

Ltac query_cases w s CC := query_unfold w s CC; query_steps.

Lemma query_flags service method params options w s :
  let o := query service method params options w s in
  successes (log w) <= successes (log (final_world o)) /\
  (successes (log (final_world o)) = successes (log w) ->
   (_reconnected s = false -> _reconnected (final_api o) = false) /\
   (connection_error_reported s = true ->
    connection_error_reported (final_api o) = true)).
Proof.
  pose proof (connection_check_flags w s) as H. cbv zeta in H. cbv zeta.
  query_cases w s CC.
  all: cbn [final_world final_api] in *; fields.
  all: cbn [successes is_success Nat.add] in *; try exact H.
  all: destruct H as [H1 H2]; (split; [lia | intros E]).
  all: destruct (H2 E); split; auto.
Qed.

Lemma run_call_flags c w s :
  let o := run_call c w s in
  successes (log w) <= successes (log (final_world o)) /\
  (successes (log (final_world o)) = successes (log w) ->
   (_reconnected s = false -> _reconnected (final_api o) = false) /\
   (connection_error_reported s = true ->
    connection_error_reported (final_api o) = true)).
Proof.
  destruct c; cbn [run_call]; unfold fmap, bind, ret.
  - unfold has_reconnected, bind, self, update, ret.
    destruct (_reconnected s) eqn:E; cbn; rewrite ?E; auto.
  - pose proof (connection_check_flags w s) as H.
    destruct (connection_check w s); exact H.
  - unfold disconnect, bind, self, update, logger, ret.
    repeat step; cbn; auto.
  - pose proof (connect_flags w s) as H.
    destruct (connect w s); exact H.
  - cbn. auto.
  - pose proof (query_flags service method params options w s) as H.
    destruct (query service method params options w s); exact H.
Qed.


(** ** The recursion budget is never exhausted *)

Lemma connection_check_fuel w s : out_of_fuel (connection_check w s) = false.
Proof.
  unfold connection_check, bind, self, time, ret.
  destruct (negb (_connected s) || _); [| reflexivity].
  destruct (negb _); [reflexivity |].
  pose proof (connect_fuel (tick w) s) as H. unfold tick in H.
  destruct (connect _ s) as [[|] ? ?| | |]; exact H.
Qed.

Lemma query_fuel service method params options w s :
  out_of_fuel (query service method params options w s) = false.
Proof.
  pose proof (connection_check_fuel w s) as H.
  query_cases w s CC; cbn [out_of_fuel] in *; congruence.
Qed.

Lemma run_call_fuel c w s : out_of_fuel (run_call c w s) = false.
Proof.
  destruct c; cbn [run_call]; unfold fmap, bind, ret.
  - unfold has_reconnected, bind, self, update, ret.
    destruct (_reconnected s); reflexivity.
  - pose proof (connection_check_fuel w s) as H.
    destruct (connection_check w s); exact H.
  - destruct (disconnect_returns location error0 w s) as (w' & s' & E & _).
    rewrite E. reflexivity.
  - pose proof (connect_fuel w s) as H.
    destruct (connect w s); exact H.
  - reflexivity.
  - pose proof (query_fuel service method params options w s) as H.
    destruct (query service method params options w s); exact H.
Qed.

(** ** Successful [connect] *)

Lemma connect_connected w s :
  let o := connect w s in
  _connected (final_api o) = true ->
  o = Ret true (final_world o) (final_api o) /\
  login_accepted (next_reply w (_resource s) (login_request s)) = true /\
  _connection (final_api o) = Some (Session (sessions_made w)) /\
  _reconnected (final_api o) = true /\
  connection_error_reported (final_api o) = false /\
  lock (final_api o) = false /\
  successes (log (final_world o)) = S (successes (log w)).
Proof.
  unfold connect, login_accepted, next_reply. unfold_steps.
  repeat first [progress fields | progress norm_self
               | progress cbn [final_api final_world] | step].
  all: try discriminate.
  all: intros _; repeat split; try reflexivity; try congruence.
  all: apply negb_false_iff; assumption.
Qed.

Lemma connect_returns_true w s w' s' :
  connect w s = Ret true w' s' ->
  _connected s' = true /\ _reconnected s' = true /\
  successes (log w') = S (successes (log w)).
Proof.
  intros H. pose proof (connect_connected w s) as C. cbv zeta in C.
  rewrite H in C. cbn [final_api final_world] in C.
  assert (E : _connected s' = true).
  { revert H. unfold connect. unfold_steps.
    repeat first [progress fields | progress norm_self | step];
      intros H; inversion H; subst; reflexivity. }
  destruct (C E) as (_ & _ & _ & R & _ & _ & S). auto.
Qed.

(** ** Sequences of calls *)

Lemma run_calls_flags cs : forall w s obs w' s',
  run_calls cs w s = (obs, w', s') ->
  successes (log w) <= successes (log w') /\
  (successes (log w') = successes (log w) ->
   (_reconnected s = false -> _reconnected s' = false) /\
   (connection_error_reported s = true ->
    connection_error_reported s' = true)).
Proof.
  induction cs as [| c rest IH]; intros w s obs w' s' R; cbn [run_calls] in R.
  - inversion R; subst. auto.
  - pose proof (run_call_flags c w s) as H. cbv zeta in H.
    destruct (run_call c w s) as [v w1 s1 | e w1 s1 | w1 s1 | w1 s1];
      cbn [final_world final_api] in H.
    1,2: destruct (run_calls rest w1 s1) as [[obs1 w2] s2] eqn:R1;
      inversion R; subst;
      destruct (IH _ _ _ _ _ R1) as [I1 I2]; destruct H as [H1 H2];
      (split; [lia | intros E]);
      assert (E1 : successes (log w1) = successes (log w)) by lia;
      assert (E2 : successes (log w') = successes (log w1)) by lia;
      destruct (H2 E1); destruct (I2 E2); split; auto.
    all: inversion R; subst; exact H.
Qed.

(** C6: once [connect] has returned [True], the first
    [has_reconnected] returns [True] and clears the flag; after any
    further calls during which no login completes, [has_reconnected]
    returns [False].  No call raises the flag from [False] to [True]
    unless a login completes within it, and [disconnect] always leaves
    it [False]. *)
Theorem has_reconnected_once w s w1 s1 :
  connect w s = Ret true w1 s1 ->
  has_reconnected w1 s1 = Ret true w1 (set_reconnected false s1) /\
  (forall cs obs w2 s2,
      run_calls cs w1 (set_reconnected false s1) = (obs, w2, s2) ->
      successes (log w2) = successes (log w1) ->
      has_reconnected w2 s2 = Ret false w2 s2) /\
  (forall c w0 s0,
      _reconnected s0 = false ->
      _reconnected (final_api (run_call c w0 s0)) = true ->
      successes (log w0) < successes (log (final_world (run_call c w0 s0)))) /\
  (forall location err w0 s0,
      _reconnected (final_api (disconnect location err w0 s0)) = false).
Proof.
  intros H. apply connect_returns_true in H. destruct H as (_ & R & _).
  split; [| split; [| split]].
  - unfold has_reconnected, bind, self, update, ret. rewrite R. reflexivity.
  - intros cs obs w2 s2 Hr Hs.
    destruct (run_calls_flags cs _ _ _ _ _ Hr) as [_ F].
    destruct (F Hs) as [F1 _]. specialize (F1 eq_refl).
    unfold has_reconnected, bind, self, ret. rewrite F1. reflexivity.
  - intros c w0 s0 H0 H1.
    destruct (run_call_flags c w0 s0) as [L F].
    destruct (Nat.eq_dec (successes (log (final_world (run_call c w0 s0))))
                         (successes (log w0))) as [E | E]; [| lia].
    destruct (F E) as [F1 _]. rewrite (F1 H0) in H1. discriminate.
  - intros location err w0 s0.
    destruct (disconnect_returns location err w0 s0)
      as (w' & s' & E & _ & _ & R' & _).
    rewrite E. exact R'.
Qed.


(** ** The session invariant *)

Lemma connect_invariant w s : session_invariant (final_api (connect w s)).
Proof.
  unfold session_invariant, connect. unfold_steps.
  repeat first [progress fields | progress norm_self
               | progress cbn [final_api] | step];
    congruence.
Qed.

Lemma connect_sessions w s :
  sessions_made (final_world (connect w s)) = S (sessions_made w).
Proof.
  unfold connect. unfold_steps.
  repeat first [progress fields | progress norm_self
               | progress cbn [final_world] | step];
    reflexivity.
Qed.

Lemma connection_check_invariant w s :
  session_invariant s -> session_invariant (final_api (connection_check w s)).
Proof.
  intros I. unfold connection_check, bind, self, time, ret.
  destruct (negb (_connected s) || _); [| exact I].
  destruct (negb _); [exact I |].
  pose proof (connect_invariant (tick w) s) as H. unfold tick in H.
  destruct (connect _ s) as [[|] ? ?| | |]; exact H.
Qed.

(** A [connection_check] that returns [True] leaves a session in place. *)
Lemma connection_check_true w s w' s' :
  connection_check w s = Ret true w' s' -> _connection s' <> None.
Proof.
  unfold connection_check, bind, self, time, ret.
  destruct (_connected s) eqn:C; destruct (_connection s) eqn:N; cbn [negb orb].
  1: intros H; inversion H; subst; congruence.
  all: destruct (negb _); [discriminate |];
    pose proof (connect_connected (tick w) s) as H; cbv zeta in H;
    pose proof (connect_returns_true (tick w) s) as T;
    unfold tick in H, T;
    destruct (connect _ s) as [[|] w1 s1| | |]; try discriminate;
    intros E; inversion E; subst;
    destruct (T _ _ eq_refl) as (T1 & _);
    destruct (H T1) as (_ & _ & K & _); cbn [final_api] in K; congruence.
Qed.

Lemma query_invariant service method params options w s :
  session_invariant s ->
  session_invariant (final_api (query service method params options w s)).
Proof.
  intros I. pose proof (connection_check_invariant w s I) as H.
  unfold session_invariant in *.
  query_cases w s CC.
  all: cbn [final_api] in *; fields; try exact H; congruence.
Qed.

Lemma run_call_invariant c w s :
  session_invariant s -> session_invariant (final_api (run_call c w s)).
Proof.
  intros I. destruct c; cbn [run_call]; unfold fmap, bind, ret.
  - unfold has_reconnected, bind, self, update, ret.
    destruct (_reconnected s); exact I.
  - pose proof (connection_check_invariant w s I) as H.
    destruct (connection_check w s); exact H.
  - destruct (disconnect_returns location error0 w s)
      as (w' & s' & E & C & _).
    rewrite E. unfold session_invariant. cbn. congruence.
  - pose proof (connect_invariant w s) as H.
    destruct (connect w s); exact H.
  - exact I.
  - pose proof (query_invariant service method params options w s I) as H.
    destruct (query service method params options w s); exact H.
Qed.

Lemma run_calls_invariant cs : forall w s obs w' s',
  session_invariant s -> run_calls cs w s = (obs, w', s') ->
  session_invariant s'.
Proof.
  induction cs as [| c rest IH]; intros w s obs w' s' I R; cbn [run_calls] in R.
  - inversion R; subst. exact I.
  - pose proof (run_call_invariant c w s I) as H.
    destruct (run_call c w s) as [v w1 s1 | e w1 s1 | w1 s1 | w1 s1];
      cbn [final_api] in H.
    1,2: destruct (run_calls rest w1 s1) as [[obs1 w2] s2] eqn:R1;
      inversion R; subst; exact (IH _ _ _ _ _ H R1).
    all: inversion R; subst; exact H.
Qed.

Lemma connection_check_session w s :
  let o := connection_check w s in
  sessions_made w <= sessions_made (final_world o) /\
  (sessions_made (final_world o) = sessions_made w ->
   session_kept_or_cleared s (final_api o)).
Proof.
  unfold connection_check, bind, self, time, ret, session_kept_or_cleared.
  destruct (negb (_connected s) || _); [| cbn; auto].
  destruct (negb _); [cbn; auto |].
  pose proof (connect_sessions (tick w) s) as H. unfold tick in H.
  destruct (connect _ s) as [[|] ? ?| | |];
    cbn in *; split; lia.
Qed.

Lemma query_session service method params options w s :
  let o := query service method params options w s in
  sessions_made w <= sessions_made (final_world o) /\
  (sessions_made (final_world o) = sessions_made w ->
   session_kept_or_cleared s (final_api o)).
Proof.
  pose proof (connection_check_session w s) as H. cbv zeta in H. cbv zeta.
  unfold session_kept_or_cleared in *.
  query_cases w s CC.
  all: cbn [final_world final_api] in *; fields; try exact H.
  all: destruct H as [H1 H2]; (split; [lia | intros E; try lia]).
  all: destruct (H2 E) as [[K1 K2] | [K1 K2]]; auto.
Qed.

(** C9: [_connected = True] implies that a session object is held.
    This holds after [__init__], is kept by every call whatever its
    outcome, and so holds after every sequence of calls.  [connect]
    leaves [_connected = True] only by returning [True] on a login
    reply with a null [error] and a truthy [authenticated], with the
    session it created for that login in place; [disconnect] clears
    both fields; [query] leaves both as they were unless it entered
    [connect] or cleared both. *)
Theorem connected_implies_session :
  (forall host username password use_ssl,
      session_invariant (init host username password use_ssl)) /\
  (forall c w s,
      session_invariant s -> session_invariant (final_api (run_call c w s))) /\
  (forall cs w s obs w' s',
      session_invariant s -> run_calls cs w s = (obs, w', s') ->
      session_invariant s') /\
  (forall w s,
      _connected (final_api (connect w s)) = true ->
      connect w s = Ret true (final_world (connect w s)) (final_api (connect w s)) /\
      login_accepted (next_reply w (_resource s) (login_request s)) = true /\
      _connection (final_api (connect w s)) = Some (Session (sessions_made w))) /\
  (forall location err w s,
      _connected (final_api (disconnect location err w s)) = false /\
      _connection (final_api (disconnect location err w s)) = None) /\
  (forall service method params options w s,
      sessions_made (final_world (query service method params options w s))
      = sessions_made w ->
      session_kept_or_cleared s
        (final_api (query service method params options w s))).
Proof.
  split; [| split; [| split; [| split; [| split]]]].
  - intros host username password use_ssl. unfold session_invariant. cbn.
    discriminate.
  - exact run_call_invariant.
  - intros cs w s obs w' s' I R. exact (run_calls_invariant cs _ _ _ _ _ I R).
  - intros w s H. destruct (connect_connected w s H) as (A & B & C & _). auto.
  - intros location err w s.
    destruct (disconnect_returns location err w s) as (w' & s' & E & C & N & _).
    rewrite E. auto.
  - intros service method params options w s.
    exact (proj2 (query_session service method params options w s)).
Qed.

(** ** What a [query] sends *)

Lemma connect_sent w s :
  let o := connect w s in
  _resource (final_api o) = _resource s /\
  (sent (final_world o) = sent w \/
   sent (final_world o) = (_resource s, login_request s) :: sent w).
Proof.
  cbv zeta. generalize (eq_refl (connect w s)).
  generalize (connect w s) at 2 3 4 5 as o.
  unfold connect. unfold_steps.
  repeat first [progress fields | progress norm_self | step];
    intros o <-; cbn [final_world final_api]; fields;
    (split; [reflexivity | auto]).
Qed.

Lemma connection_check_sent w s :
  let o := connection_check w s in
  _resource (final_api o) = _resource s /\
  (sent (final_world o) = sent w \/
   sent (final_world o) = (_resource s, login_request s) :: sent w).
Proof.
  unfold connection_check, bind, self, time, ret.
  destruct (negb (_connected s) || _); [| cbn; auto].
  destruct (negb _); [cbn; auto |].
  pose proof (connect_sent (tick w) s) as H. unfold tick in H.
  destruct (connect _ s) as [[|] ? ?| | |]; exact H.
Qed.

Lemma default_params_if params :
  default_params params = if Py.truthy params then params else JObject [].
Proof. unfold default_params. destruct (Py.truthy params); reflexivity. Qed.

Lemma default_options_if options :
  default_options options =
  if Py.truthy options then options
  else JObject [ ("updatelastaccess", JBool false) ].
Proof. unfold default_options. destruct (Py.truthy options); reflexivity. Qed.

Lemma query_sent service method params options w s :
  let o := query service method params options w s in
  exists posts,
    sent (final_world o) = (posts ++ sent w)%list /\
    Forall (fun p => p = (_resource s, login_request s) \/
                     p = sent_by_query service method params options s) posts.
Proof.
  pose proof (connection_check_sent w s) as H. cbv zeta in H. cbv zeta.
  unfold sent_by_query.
  rewrite <- default_params_if, <- default_options_if.
  query_cases w s CC.
  all: cbn [final_world final_api] in *; fields; destruct H as [R [H | H]];
    rewrite ?H, ?R.
  all: first
    [ exists []; split; [reflexivity | apply Forall_nil]
    | eexists [_]; split; [reflexivity |]
    | eexists [_; _]; split; [reflexivity |] ].
  all: repeat apply Forall_cons; try apply Forall_nil.
  all: first [left; reflexivity | right; reflexivity].
Qed.

Lemma query_sent_connected service method params options w s :
  _connected s = true -> _connection s <> None -> lock s = false ->
  sent (final_world (query service method params options w s)) =
  sent_by_query service method params options s :: sent w.
Proof.
  intros C N L.
  assert (CC0 : connection_check w s = Ret true w s).
  { unfold connection_check, bind, self, ret. rewrite C.
    destruct (_connection s); [reflexivity | congruence]. }
  unfold sent_by_query.
  rewrite <- default_params_if, <- default_options_if.
  query_cases w s CC; try discriminate.
  all: inversion CC0; subst; try congruence.
  all: cbn [final_world]; fields; reflexivity.
Qed.

(** C10: the body that [query] posts carries [{}] in place of a falsy
    [params] and [{"updatelastaccess": false}] in place of a falsy
    [options], and the arguments themselves otherwise.  Every post made
    during a [query] is either the login of [connect] or that body; on a
    connected client with the lock free exactly that one body is posted.
    In particular [None] and [{}] are both replaced, for either
    argument. *)
Theorem query_defaults service method params options w s :
  (exists posts,
      sent (final_world (query service method params options w s)) =
      (posts ++ sent w)%list /\
      Forall (fun p => p = (_resource s, login_request s) \/
                       p = sent_by_query service method params options s)
             posts) /\
  (_connected s = true -> _connection s <> None -> lock s = false ->
   sent (final_world (query service method params options w s)) =
   sent_by_query service method params options s :: sent w) /\
  (forall p, In p [JNull; JObject []] ->
      sent_by_query service method p p s =
      (_resource s,
       JObject [ ("service", JString service);
                 ("method", JString method);
                 ("params", JObject []);
                 ("options", JObject [ ("updatelastaccess", JBool false) ]) ])).
Proof.
  split; [| split].
  - exact (query_sent service method params options w s).
  - exact (query_sent_connected service method params options w s).
  - intros p [<- | [<- | []]]; reflexivity.
Qed.

(** ** Exceptions *)

Lemma connect_net w s : net (final_world (connect w s)) = net w.
Proof.
  unfold connect. unfold_steps.
  repeat first [progress fields | progress norm_self
               | progress cbn [final_world] | step];
    reflexivity.
Qed.

Lemma connection_check_net w s :
  net (final_world (connection_check w s)) = net w.
Proof.
  unfold connection_check, bind, self, time, ret.
  destruct (negb (_connected s) || _); [| reflexivity].
  destruct (negb _); [reflexivity |].
  pose proof (connect_net (tick w) s) as H. unfold tick in H.
  destruct (connect _ s) as [[|] ? ?| | |]; exact H.
Qed.

Lemma connect_connection_error w s msg :
  lock s = false ->
  next_reply w (_resource s) (login_request s) = inl (ConnectionError msg) ->
  exists w' s',
    connect w s = Ret false w' s' /\
    error s' = Some (if msg =? login_message
                     then "wrong_login" else "cannot_connect") /\
    _connected s' = false /\ _connection s' = None /\ lock s' = false.
Proof.
  unfold next_reply. intros L N.
  unfold connect. unfold_steps. fields. rewrite L. fields. norm_self.
  rewrite N. fields. cbn [Py.str_exn]. fold login_message.
  destruct (msg =? login_message);
    (eexists; eexists; split; [reflexivity |]); fields; repeat split.
Qed.

Lemma query_connection_error service method params options w s msg :
  _connected s = true -> _connection s <> None -> lock s = false ->
  next_reply w (_resource s)
             (snd (sent_by_query service method params options s))
  = inl (ConnectionError msg) ->
  exists w' s',
    query service method params options w s = Ret JNull w' s' /\
    _connected s' = false /\ _connection s' = None /\ lock s' = false /\
    error s' = error s.
Proof.
  unfold next_reply, sent_by_query. cbn [snd].
  rewrite <- default_params_if, <- default_options_if.
  intros C N L R.
  assert (CC0 : connection_check w s = Ret true w s).
  { unfold connection_check, bind, self, ret. rewrite C.
    destruct (_connection s); [reflexivity | congruence]. }
  query_unfold w s CC; try discriminate.
  all: inversion CC0; subst w0 s0; clear CC0.
  rewrite L. fields. destruct (_connection s) as [c |]; [| congruence].
  fields. norm_self. rewrite R. fields.
  destruct (negb (connection_error_reported s)); fields;
    (eexists; eexists; split; [reflexivity |]); fields; repeat split.
Qed.

(** ** Session expiry during a [query] *)

Lemma query_expired_blocks service method params options w s data err code :
  _connected s = true -> _connection s <> None -> lock s = false ->
  next_reply w (_resource s)
             (snd (sent_by_query service method params options s))
  = inr (Json data) ->
  Py.getitem data "error" = inr err -> Py.is_not_none err = true ->
  Py.getitem err "code" = inr code ->
  session_expired code = true ->
  exists w' s',
    query service method params options w s = Deadlock w' s' /\
    sent w' = sent_by_query service method params options s :: sent w /\
    lock s' = true /\ _connected s' = false /\
    lock_acquire w' s' = Deadlock w' s'.
Proof.
  unfold next_reply, sent_by_query, session_expired. cbn [snd].
  rewrite <- default_params_if, <- default_options_if.
  intros C N L R He Hn Hc Hx.
  assert (D : Py.is_not_none data = true).
  { destruct data; try reflexivity. discriminate. }
  assert (CC0 : connection_check w s = Ret true w s).
  { unfold connection_check, bind, self, ret. rewrite C.
    destruct (_connection s); [reflexivity | congruence]. }
  query_unfold w s CC; try discriminate.
  all: inversion CC0; subst w0 s0; clear CC0.
  rewrite L. fields. destruct (_connection s) as [c |]; [| congruence].
  fields. norm_self. rewrite R.
  repeat first [ progress fields | rewrite D | rewrite He | rewrite Hn
               | rewrite Hc | rewrite Hx ].
  rewrite connect_locked by reflexivity.
  eexists; eexists; split; [reflexivity |].
  unfold connect_entry_world, connect_entry_api, lock_acquire. fields.
  repeat split.
Qed.

(** C1 (the code at a failing input): a client logs in and then issues
    a query that the appliance answers with error code 5001, on an
    appliance that would accept a new login and answer the retried
    query.  The query never returns.  Only the login and the one query
    were posted: the re-authentication stopped, before its login
    request, at [connect]'s [lock.acquire()], with the lock still held
    by [query]; nothing was retried. *)
Theorem expired_query_blocks :
  fst (fst (expiry_run 5001)) = [Returned (VBool true); Blocked] /\
  sent (snd (fst (expiry_run 5001))) =
    [ ("http://nas.local/rpc.php",
       query_request "system" "info" (JObject [])
                     (JObject [ ("updatelastaccess", JBool false) ]));
      ("http://nas.local/rpc.php", login_request omv) ] /\
  lock (snd (expiry_run 5001)) = true /\
  _connected (snd (expiry_run 5001)) = false.
Proof. vm_compute. repeat split. Qed.

(** C2 (the code at a failing input): on a connected client with the
    lock free, a query answered with error code 5002 ends blocked in
    [lock.acquire()]: [query] took the lock, and the [connect] it calls
    for the re-authentication acquires the same lock while it is held. *)
Theorem expired_query_reacquires_lock :
  let w := snd (fst (run_calls [CallConnect] (expiry_world 5002) omv)) in
  let s := snd (run_calls [CallConnect] (expiry_world 5002) omv) in
  lock s = false /\
  exists w' s',
    query "system" "info" JNull JNull w s = Deadlock w' s' /\
    lock s' = true /\
    lock_acquire w' s' = Deadlock w' s'.
Proof.
  cbv zeta. split; [reflexivity |].
  edestruct (query_expired_blocks "system" "info" JNull JNull
               (snd (fst (run_calls [CallConnect] (expiry_world 5002) omv)))
               (snd (run_calls [CallConnect] (expiry_world 5002) omv)))
    as (w' & s' & Q & _ & L & _ & A);
    [ reflexivity | discriminate | reflexivity | reflexivity | reflexivity
    | reflexivity | reflexivity | reflexivity | ].
  exists w', s'. auto.
Qed.

(** ** Exceptions that reach the caller *)

(** C3 fails as stated: a transport exception other than a connection
    error, a body that is not JSON, a null envelope and an envelope
    without its keys each leave [connect] or [query] as an exception; a
    [connect] that follows such an exception, and a [query] answered
    with an expired-session code, never return; and a [query] whose
    request meets a connection error returns [None] with [error] still
    the empty string that the login left. *)
Lemma exceptions_reach_the_caller :
  observe (run_call CallConnect
             (scripted [inl (TransportError "TooManyRedirects")] [1000%Q]) omv)
  = Raised (TransportError "TooManyRedirects") /\
  observe (run_call CallConnect (scripted [inr NotJson] [1000%Q]) omv)
  = Raised JSONDecodeError /\
  observe (run_call CallConnect (scripted [inr (Json JNull)] [1000%Q]) omv)
  = Raised TypeError /\
  observe (run_call CallConnect
             (scripted [inr (Json (JObject [ ("response", JNull) ]))]
                       [1000%Q]) omv)
  = Raised (KeyError "error") /\
  observe (run_call (CallQuery "system" "info" JNull JNull)
             (scripted [login_ok; inl (TransportError "TooManyRedirects")]
                       [1000%Q]) omv)
  = Raised (TransportError "TooManyRedirects") /\
  observe (run_call (CallQuery "system" "info" JNull JNull)
             (scripted [login_ok; inr NotJson] [1000%Q]) omv)
  = Raised JSONDecodeError /\
  observe (run_call (CallQuery "system" "info" JNull JNull)
             (scripted [login_ok; inr (Json JNull)] [1000%Q]) omv)
  = Raised TypeError /\
  observe (run_call (CallQuery "system" "info" JNull JNull)
             (scripted [login_ok; inr (Json (JObject [ ("error", JNull) ]))]
                       [1000%Q]) omv)
  = Raised (KeyError "response") /\
  fst (fst (run_calls [CallConnect; CallConnect]
                      (scripted [inr NotJson; login_ok] [1000%Q; 1060%Q]) omv))
  = [Raised JSONDecodeError; Blocked] /\
  observe (run_call (CallQuery "system" "info" JNull JNull)
             (scripted [login_ok; expired_reply 5001; login_ok; info_reply]
                       [1000%Q]) omv)
  = Blocked /\
  (let o := run_call (CallQuery "system" "info" JNull JNull)
                     (scripted [login_ok] [1000%Q]) omv in
   observe o = Returned (VJson JNull) /\ error (final_api o) = Some "").
Proof. vm_compute. repeat split. Qed.

(** C4 fails as stated: two consecutive logins that fail on a refused
    connection write two error lines, and a [disconnect] after a
    reported failure leaves [connection_error_reported] set. *)
Lemma failures_logged_each_time :
  let refused := inl (ConnectionError "Connection refused") in
  let run := run_calls [CallConnect; CallConnect]
                       (scripted [refused; refused] [1000%Q; 1060%Q]) omv in
  fst (fst run) = [Returned (VBool false); Returned (VBool false)] /\
  error_lines (log (snd (fst run))) = 2 /\
  let denied := inr (Json (envelope (error_object 1 "Permission denied") JNull)) in
  let run' := run_calls [CallConnect; CallDisconnect "unknown" ErrNone]
                        (scripted [denied] [1000%Q]) omv in
  fst (fst run') = [Returned (VBool false); Returned VNone] /\
  connection_error_reported (snd run') = true.
Proof. vm_compute. repeat split. Qed.

(** ** Concrete runs *)

Lemma appliance_orderly : orderly_transport appliance.
Proof.
  intros n url body. cbn [appliance net].
  destruct (is_login_body body); reflexivity.
Qed.

Lemma connection_check_cases_witness :
  connection_check (scripted [] [10%Q]) omv
  = Ret false (tick (scripted [] [10%Q])) omv /\
  connection_check (scripted [login_ok] [1000%Q]) omv
  = connect (tick (scripted [login_ok] [1000%Q])) omv.
Proof.
  split.
  - apply (proj1 (connection_check_cases (scripted [] [10%Q]) omv)).
    + left. reflexivity.
    + vm_compute. reflexivity.
  - apply (proj2 (proj2 (connection_check_cases
                           (scripted [login_ok] [1000%Q]) omv))).
    + left. reflexivity.
    + vm_compute. discriminate.
Defined.

Lemma has_reconnected_once_witness :
  let w := scripted [login_ok] [1000%Q] in
  let w1 := final_world (connect w omv) in
  let s1 := final_api (connect w omv) in
  connect w omv = Ret true w1 s1 /\
  has_reconnected w1 s1 = Ret true w1 (set_reconnected false s1).
Proof.
  cbv zeta.
  assert (C : connect (scripted [login_ok] [1000%Q]) omv
              = Ret true
                  (final_world (connect (scripted [login_ok] [1000%Q]) omv))
                  (final_api (connect (scripted [login_ok] [1000%Q]) omv)))
    by (vm_compute; reflexivity).
  split; [exact C |].
  exact (proj1 (has_reconnected_once _ _ _ _ C)).
Defined.

Lemma connect_refused_witness :
  let w := scripted [bad_login] [1000%Q] in
  lock omv = false /\
  exists w' s',
    connect w omv = Ret false w' s' /\
    _connection s' = None /\ _connected s' = false /\
    error s' = Some "wrong_login".
Proof.
  cbv zeta. split; [reflexivity |].
  destruct (proj1 (connect_refused (scripted [bad_login] [1000%Q]) omv
                     (envelope (error_object 1 "Incorrect username or password")
                               JNull)
                     eq_refl eq_refl)
              (error_object 1 "Incorrect username or password")
              (JString "Incorrect username or password")
              eq_refl ltac:(discriminate) eq_refl)
    as (w' & s' & E & N & C & K & _).
  exists w', s'. repeat split; try assumption.
  apply K. reflexivity.
Defined.

Lemma disconnect_clears_witness :
  let w := scripted [] [1000%Q] in
  exists w' s',
    disconnect "query" (ErrStr "timed out") w omv = Ret tt w' s' /\
    (_connection_retry_sec <= clock w' (clock_reads w'))%Q /\
    connection_check w' s' = connect (tick w') s'.
Proof.
  cbv zeta.
  destruct (disconnect_clears "query" (ErrStr "timed out")
              (scripted [] [1000%Q]) omv)
    as (w' & s' & E & _ & _ & _ & _ & H).
  exists w', s'. split; [exact E |].
  assert (T : (_connection_retry_sec <= clock w' (clock_reads w'))%Q).
  { vm_compute in E. inversion E; subst. vm_compute. discriminate. }
  split; [exact T | exact (H T)].
Defined.

Lemma connected_implies_session_witness :
  session_invariant omv /\
  session_invariant
    (final_api (run_call (CallQuery "system" "info" JNull JNull) appliance omv)).
Proof.
  assert (I : session_invariant omv) by (intros C; discriminate C).
  split; [exact I |].
  exact (proj1 (proj2 connected_implies_session)
               (CallQuery "system" "info" JNull JNull) appliance omv I).
Defined.

Lemma query_defaults_witness :
  _connected (snd logged_in) = true /\
  lock (snd logged_in) = false /\
  sent (final_world (query "system" "info" JNull (JObject [])
                           (fst logged_in) (snd logged_in)))
  = ("http://nas.local/rpc.php",
     JObject [ ("service", JString "system");
               ("method", JString "info");
               ("params", JObject []);
               ("options", JObject [ ("updatelastaccess", JBool false) ]) ])
      :: sent (fst logged_in).
Proof.
  split; [reflexivity | split; [reflexivity |]].
  apply (proj1 (proj2 (query_defaults "system" "info" JNull (JObject [])
                         (fst logged_in) (snd logged_in)))).
  - reflexivity.
  - discriminate.
  - reflexivity.
Defined.

(** ** [connect]: the two ways it returns *)

Lemma connect_accepts w s :
  lock s = false ->
  login_accepted (next_reply w (_resource s) (login_request s)) = true ->
  exists w' s',
    connect w s = Ret true w' s' /\
    _connected s' = true /\ _reconnected s' = true /\
    _connection s' = Some (Session (sessions_made w)) /\
    error s' = Some "" /\
    connection_error_reported s' = false /\
    lock s' = false /\
    _connection_epoch s' = clock w (clock_reads w) /\
    sent w' = (_resource s, login_request s) :: sent w /\
    log w' = success_line s :: log w /\
    net w' = net w /\ _resource s' = _resource s /\
    sessions_made w' = S (sessions_made w).
Proof.
  unfold login_accepted, next_reply, success_line. intros L.
  unfold connect. unfold_steps. fields. rewrite L. fields. norm_self.
  repeat first [progress fields | progress norm_self | step];
    intros A; try discriminate A;
    try (rewrite A in *; discriminate);
    try (cbn [Py.is_not_none negb] in *; discriminate).
  all: eexists; eexists; (split; [reflexivity |]); fields; repeat split;
    assumption.
Qed.

Lemma connect_returns_false w s w' s' :
  connect w s = Ret false w' s' ->
  lock s = false /\
  _connected s' = false /\ _connection s' = None /\
  (error s' = Some "cannot_connect" \/ error s' = Some "wrong_login") /\
  lock s' = false /\
  _reconnected s' = _reconnected s /\
  _connection_epoch s' = clock w (clock_reads w) /\
  sent w' = (_resource s, login_request s) :: sent w /\
  net w' = net w /\ clock w' = clock w /\
  clock_reads w' = S (clock_reads w).
Proof.
  unfold connect. unfold_steps.
  repeat first [progress fields | progress norm_self | step];
    intros H; inversion H; subst; clear H; fields; repeat split; auto.
Qed.

(** ** The lock across calls *)

Lemma connect_returns_unlocked w s b w' s' :
  connect w s = Ret b w' s' -> lock s = false /\ lock s' = false.
Proof.
  destruct (lock s) eqn:L.
  - rewrite (connect_locked w s L). discriminate.
  - intros H. split; [reflexivity |]. destruct b.
    + pose proof (connect_connected w s) as C. cbv zeta in C.
      rewrite H in C. cbn [final_api final_world] in C.
      destruct (connect_returns_true _ _ _ _ H) as (T & _).
      destruct (C T) as (_ & _ & _ & _ & _ & U & _). exact U.
    + destruct (connect_returns_false _ _ _ _ H) as (_ & _ & _ & _ & U & _).
      exact U.
Qed.

Lemma connect_raises_locked w s e w' s' :
  connect w s = Raise e w' s' ->
  lock s = false /\ lock s' = true /\ _connected s' = false.
Proof.
  unfold connect. unfold_steps.
  repeat first [progress fields | progress norm_self | step];
    intros H; inversion H; subst; clear H; fields; repeat split;
    try assumption; try reflexivity; congruence.
Qed.

Lemma connection_check_lock w s b w' s' :
  connection_check w s = Ret b w' s' -> lock s' = lock s.
Proof.
  unfold connection_check, bind, self, time, ret.
  destruct (negb (_connected s) || _); [| intros H; inversion H; reflexivity].
  destruct (negb _); [intros H; inversion H; reflexivity |].
  pose proof (connect_returns_unlocked (tick w) s) as U. unfold tick in U.
  destruct (connect _ s) as [[|] w1 s1| | |]; try discriminate;
    intros H; inversion H; subst;
    destruct (U _ _ _ eq_refl) as [U1 U2]; congruence.
Qed.

Lemma query_lock service method params options w s v w' s' :
  query service method params options w s = Ret v w' s' -> lock s' = lock s.
Proof.
  pose proof (connection_check_lock w s) as H.
  query_cases w s CC; intros E; inversion E; subst; clear E; fields;
    first [ exact (H _ _ _ eq_refl)
          | rewrite <- (H _ _ _ eq_refl); congruence ].
Qed.

(** X10: a call that returns leaves the lock as it found it. *)
Theorem returning_call_keeps_lock c w s v w' s' :
  run_call c w s = Ret v w' s' -> lock s' = lock s.
Proof.
  destruct c as [ | | location err | | | service method params options];
    cbn [run_call]; unfold fmap, bind, ret.
  - unfold has_reconnected, bind, self, update, ret.
    destruct (_reconnected s); intros H; inversion H; reflexivity.
  - pose proof (connection_check_lock w s) as L.
    destruct (connection_check w s); try discriminate.
    intros H; inversion H; subst. exact (L _ _ _ eq_refl).
  - destruct (disconnect_returns location err w s)
      as (w1 & s1 & E & _ & _ & _ & _ & _ & L & _).
    rewrite E. intros H; inversion H; subst. exact L.
  - pose proof (connect_returns_unlocked w s) as L.
    destruct (connect w s); try discriminate.
    intros H; inversion H; subst.
    destruct (L _ _ _ eq_refl). congruence.
  - unfold connected, bind, self, ret. intros H; inversion H; reflexivity.
  - pose proof (query_lock service method params options w s) as L.
    destruct (query service method params options w s); try discriminate.
    intros H; inversion H; subst. exact (L _ _ _ eq_refl).
Qed.

(** ** A client whose lock was left held *)

Lemma connection_check_wedged w s :
  wedged s ->
  match connection_check w s with
  | Ret true _ _ => False
  | o => wedged (final_api o)
  end.
Proof.
  intros [L C]. unfold connection_check, bind, self, time, ret.
  rewrite C. cbn [negb orb].
  destruct (negb _); [split; assumption |].
  rewrite connect_locked by exact L.
  unfold wedged, connect_entry_api. cbn. split; [exact L | reflexivity].
Qed.

Lemma query_wedged service method params options w s :
  wedged s ->
  wedged (final_api (query service method params options w s)).
Proof.
  intros W. pose proof (connection_check_wedged w s W) as H.
  query_unfold w s CC; cbn [final_api]; try exact H. contradiction.
Qed.

Lemma run_call_wedged c w s :
  wedged s -> wedged (final_api (run_call c w s)).
Proof.
  intros W. destruct c as [ | | location err | | | service method params options];
    cbn [run_call]; unfold fmap, bind, ret.
  - unfold has_reconnected, bind, self, update, ret.
    destruct (_reconnected s); exact W.
  - pose proof (connection_check_wedged w s W) as H.
    destruct (connection_check w s) as [[|] ? ?| | |];
      [contradiction | exact H ..].
  - destruct (disconnect_returns location err w s)
      as (w1 & s1 & E & C & _ & _ & _ & _ & L & _).
    rewrite E. destruct W as [WL WC]. split; cbn; congruence.
  - destruct W as [WL WC]. rewrite connect_locked by exact WL.
    unfold wedged, connect_entry_api. cbn. split; [exact WL | reflexivity].
  - exact W.
  - pose proof (query_wedged service method params options w s W) as H.
    destruct (query service method params options w s); exact H.
Qed.

Lemma run_calls_wedged cs : forall w s obs w' s',
  wedged s -> run_calls cs w s = (obs, w', s') -> wedged s'.
Proof.
  induction cs as [| c rest IH]; intros w s obs w' s' W R; cbn [run_calls] in R.
  - inversion R; subst. exact W.
  - pose proof (run_call_wedged c w s W) as H.
    destruct (run_call c w s) as [v w1 s1 | e w1 s1 | w1 s1 | w1 s1];
      cbn [final_api] in H.
    1,2: destruct (run_calls rest w1 s1) as [[obs1 w2] s2] eqn:R1;
      inversion R; subst; exact (IH _ _ _ _ _ H R1).
    all: inversion R; subst; exact H.
Qed.

(** ** Calls on an orderly transport that never reports expiry *)

Lemma connect_returns_orderly w s :
  orderly_transport w -> lock s = false ->
  match connect w s with
  | Ret _ w' s' => lock s' = false /\ net w' = net w
  | _ => False
  end.
Proof.
  intros O L.
  pose proof (O (length (sent w)) (_resource s) (login_request s)) as Ow.
  change (is_login_body (login_request s)) with true in Ow.
  revert Ow. clear O. unfold orderly_reply, well_formed_envelope.
  unfold connect. unfold_steps. fields. rewrite L.
  repeat first [progress fields | progress norm_self | step];
    intros; try (split; reflexivity); congruence.
Qed.

Lemma connection_check_returns_orderly w s :
  orderly_transport w -> lock s = false ->
  match connection_check w s with
  | Ret _ w' s' => lock s' = false /\ net w' = net w
  | _ => False
  end.
Proof.
  intros O L. unfold connection_check, bind, self, time, ret.
  destruct (negb (_connected s) || _); [| split; [exact L | reflexivity]].
  destruct (negb _); [split; [exact L | reflexivity] |].
  pose proof (connect_returns_orderly (tick w) s O L) as H. unfold tick in H.
  destruct (connect _ s) as [[|] ? ?| | |]; exact H.
Qed.

Lemma query_returns_orderly service method params options w s :
  orderly_transport w -> never_expires w -> lock s = false ->
  match query service method params options w s with
  | Ret _ w' s' => lock s' = false /\ net w' = net w
  | _ => False
  end.
Proof.
  intros O X L.
  pose proof (connection_check_returns_orderly w s O L) as H.
  pose proof (connection_check_true w s) as T.
  query_unfold w s CC; try contradiction; [| exact H].
  destruct H as [L0 N0]. specialize (T _ _ eq_refl).
  pose proof (O (length (sent w0)) (_resource s0)
                (query_request service method (default_params params)
                               (default_options options))) as Ow.
  pose proof (X (length (sent w0)) (_resource s0)
                (query_request service method (default_params params)
                               (default_options options))) as Xw.
  rewrite <- N0 in Ow, Xw. revert Ow Xw. clear O X CC.
  unfold orderly_reply, well_formed_envelope, expiry_free_reply, session_expired.
  rewrite L0.
  query_steps; intros; try (split; [reflexivity | assumption]);
    try congruence.
  all: rewrite negb_true_iff in *; congruence.
Qed.

Lemma run_call_returns_orderly c w s :
  orderly_transport w -> never_expires w -> lock s = false ->
  match run_call c w s with
  | Ret _ w' s' => lock s' = false /\ net w' = net w
  | _ => False
  end.
Proof.
  intros O X L.
  destruct c as [ | | location err | | | service method params options];
    cbn [run_call]; unfold fmap, bind, ret.
  - unfold has_reconnected, bind, self, update, ret.
    destruct (_reconnected s); split; auto.
  - pose proof (connection_check_returns_orderly w s O L) as H.
    destruct (connection_check w s); exact H.
  - destruct (disconnect_returns location err w s)
      as (w1 & s1 & E & _ & _ & _ & _ & _ & L1 & N1 & _).
    rewrite E. split; congruence.
  - pose proof (connect_returns_orderly w s O L) as H.
    destruct (connect w s); exact H.
  - unfold connected, bind, self, ret. split; auto.
  - pose proof (query_returns_orderly service method params options w s O X L)
      as H.
    destruct (query service method params options w s); exact H.
Qed.

(** X11: on a transport that either raises a connection error or
    answers with a well-formed envelope, and never with an
    expired-session code, a client whose lock is free answers every call
    of every sequence of calls: each call returns, none raises or
    blocks, and the lock is free at the end. *)
Theorem orderly_calls_all_return cs : forall w s obs w' s',
  orderly_transport w -> never_expires w -> lock s = false ->
  run_calls cs w s = (obs, w', s') ->
  forallb is_returned obs = true /\ length obs = length cs /\
  lock s' = false.
Proof.
  induction cs as [| c rest IH]; intros w s obs w' s' O X L R;
    cbn [run_calls] in R.
  - inversion R; subst. auto.
  - pose proof (run_call_returns_orderly c w s O X L) as H.
    destruct (run_call c w s) as [v w1 s1 | | |]; try contradiction.
    destruct H as [L1 N1].
    destruct (run_calls rest w1 s1) as [[obs1 w2] s2] eqn:R1.
    inversion R; subst.
    assert (O1 : orderly_transport w1)
      by (intros n url body; rewrite N1; apply O).
    assert (X1 : never_expires w1)
      by (intros n url body; rewrite N1; apply X).
    destruct (IH _ _ _ _ _ O1 X1 L1 R1) as (A & B & C).
    cbn [forallb is_returned length andb]. auto.
Qed.


(** ** A [query] that gets an answer *)

Lemma set_lock_release s :
  lock s = false -> set_lock false (set_lock true s) = s.
Proof. destruct s. cbn. intros ->. reflexivity. Qed.

Lemma query_exchange service method params options w s w0 s0 data err r :
  connection_check w s = Ret true w0 s0 ->
  lock s0 = false ->
  next_reply w0 (_resource s0)
             (snd (sent_by_query service method params options s0))
  = inr (Json data) ->
  Py.getitem data "error" = inr err ->
  benign_error err = true ->
  Py.getitem data "response" = inr r ->
  query service method params options w s
  = Ret r
        (mkWorld (net w0)
                 (sent_by_query service method params options s0 :: sent w0)
                 (clock w0) (clock_reads w0) (sessions_made w0)
                 ((Debug, QueryResponse (_host s0) data)
                    :: (Debug, QueryMsg (_host s0) service method
                                 (default_params params)
                                 (default_options options))
                    :: log w0))
        s0.
Proof.
  unfold next_reply, sent_by_query, benign_error. cbn [snd].
  rewrite <- default_params_if, <- default_options_if.
  intros CC0 L R He Hb Hr.
  pose proof (connection_check_true _ _ _ _ CC0) as N.
  assert (D : Py.is_not_none data = true).
  { destruct data; try reflexivity. discriminate. }
  query_unfold w s CC; try discriminate.
  all: inversion CC0; subst w1 s1; clear CC0.
  rewrite L. fields. destruct (_connection s0) as [c |]; [| congruence].
  fields. norm_self. rewrite R.
  repeat first [ progress fields | rewrite D | rewrite He | rewrite Hr ].
  destruct (Py.is_not_none err).
  - repeat first [ progress fields | rewrite He ].
    destruct (Py.getitem err "code") as [| code]; [discriminate |].
    fields. unfold session_expired in Hb.
    apply negb_true_iff in Hb. rewrite Hb. fields.
    rewrite Hr. rewrite (set_lock_release s0 L). reflexivity.
  - fields. rewrite Hr. rewrite (set_lock_release s0 L). reflexivity.
Qed.

Lemma connection_check_connected w s :
  _connected s = true -> _connection s <> None ->
  connection_check w s = Ret true w s.
Proof.
  intros C N. unfold connection_check, bind, self, ret. rewrite C.
  destruct (_connection s); [reflexivity | congruence].
Qed.

Lemma connection_check_cooldown w s :
  (_connected s = false \/ _connection s = None) ->
  (clock w (clock_reads w) - _connection_epoch s < 58)%Q ->
  connection_check w s = Ret false (tick w) s.
Proof.
  intros Hd Hc. unfold connection_check, bind, self, time, ret.
  assert (G : negb (_connected s)
              || match _connection s with None => true | Some _ => false end
              = true).
  { destruct Hd as [-> | ->]; [reflexivity | apply orb_true_r]. }
  rewrite G. fold (tick w).
  destruct (Qle_bool (_connection_epoch s)
                     (clock w (clock_reads w) - _connection_retry_sec)) eqn:E.
  - apply Qle_bool_iff in E. unfold _connection_retry_sec in E. lra.
  - reflexivity.
Qed.

Lemma query_unchecked service method params options w s w' s' :
  connection_check w s = Ret false w' s' ->
  query service method params options w s = Ret JNull w' s'.
Proof.
  intros CC0. query_unfold w s CC; try discriminate.
  inversion CC0; subst. reflexivity.
Qed.

(** ** What no call changes, and how much a call posts *)

Lemma connect_configuration w s :
  configuration (final_api (connect w s)) = configuration s.
Proof.
  unfold configuration, connect. unfold_steps.
  repeat first [progress fields | progress norm_self
               | progress cbn [final_api] | step];
    reflexivity.
Qed.

Lemma connection_check_configuration w s :
  configuration (final_api (connection_check w s)) = configuration s.
Proof.
  unfold connection_check, bind, self, time, ret.
  destruct (negb (_connected s) || _); [| reflexivity].
  destruct (negb _); [reflexivity |].
  pose proof (connect_configuration (tick w) s) as H. unfold tick in H.
  destruct (connect _ s) as [[|] ? ?| | |]; exact H.
Qed.

Lemma query_configuration service method params options w s :
  configuration (final_api (query service method params options w s))
  = configuration s.
Proof.
  pose proof (connection_check_configuration w s) as H.
  unfold configuration in *.
  query_cases w s CC; cbn [final_api] in *; fields; exact H.
Qed.

Lemma run_call_configuration c w s :
  configuration (final_api (run_call c w s)) = configuration s.
Proof.
  destruct c as [ | | location err | | | service method params options];
    cbn [run_call]; unfold fmap, bind, ret.
  - unfold has_reconnected, bind, self, update, ret.
    destruct (_reconnected s); reflexivity.
  - pose proof (connection_check_configuration w s) as H.
    destruct (connection_check w s); exact H.
  - unfold disconnect, bind, self, update, logger, ret.
    repeat step; reflexivity.
  - pose proof (connect_configuration w s) as H.
    destruct (connect w s); exact H.
  - reflexivity.
  - pose proof (query_configuration service method params options w s) as H.
    destruct (query service method params options w s); exact H.
Qed.

Lemma run_calls_configuration cs : forall w s obs w' s',
  run_calls cs w s = (obs, w', s') -> configuration s' = configuration s.
Proof.
  induction cs as [| c rest IH]; intros w s obs w' s' R; cbn [run_calls] in R.
  - inversion R; reflexivity.
  - pose proof (run_call_configuration c w s) as H.
    destruct (run_call c w s) as [v w1 s1 | e w1 s1 | w1 s1 | w1 s1];
      cbn [final_api] in H.
    1,2: destruct (run_calls rest w1 s1) as [[obs1 w2] s2] eqn:R1;
      inversion R; subst; rewrite (IH _ _ _ _ _ R1); exact H.
    all: inversion R; subst; exact H.
Qed.

Lemma connection_check_posts w s :
  length (sent w) <= length (sent (final_world (connection_check w s)))
  <= length (sent w) + 1.
Proof.
  destruct (connection_check_sent w s) as [_ [E | E]]; rewrite E;
    cbn [length]; lia.
Qed.

Lemma query_posts service method params options w s :
  length (sent w)
  <= length (sent (final_world (query service method params options w s)))
  <= length (sent w) + 2.
Proof.
  pose proof (connection_check_posts w s) as H.
  query_cases w s CC; cbn [final_world] in *; fields; cbn [length]; lia.
Qed.

(** X15: no call posts more than two requests: [has_reconnected],
    [connected] and [disconnect] post nothing, [connect] and
    [connection_check] at most the login, [query] at most the login and
    its request; and no call removes a request from the record. *)
Theorem call_posts_at_most c w s :
  length (sent w) <= length (sent (final_world (run_call c w s)))
  <= length (sent w) + max_posts c.
Proof.
  destruct c as [ | | location err | | | service method params options];
    cbn [run_call max_posts]; unfold fmap, bind, ret.
  - unfold has_reconnected, bind, self, update, ret.
    destruct (_reconnected s); cbn; lia.
  - pose proof (connection_check_posts w s) as H.
    destruct (connection_check w s); exact H.
  - destruct (disconnect_returns location err w s)
      as (w1 & s1 & E & _ & _ & _ & _ & _ & _ & _ & S1 & _).
    rewrite E. cbn [final_world]. rewrite S1. lia.
  - destruct (connect_sent w s) as [_ [E | E]].
    all: destruct (connect w s); cbn [final_world] in *; rewrite E;
      cbn [length]; lia.
  - cbn. lia.
  - pose proof (query_posts service method params options w s) as H.
    destruct (query service method params options w s); exact H.
Qed.

(** ** [disconnect] and the log *)

(** X12: [disconnect] always returns.  It writes one error line (the
    generic "connection closed" for location "unknown", otherwise the
    location with the error, "unknown" standing in for a missing or
    empty one) unless a failure was already reported, and it leaves the
    failure flag set; a [disconnect] that follows it changes nothing
    and logs nothing. *)
Theorem disconnect_logs_once location err w s :
  exists w' s',
    disconnect location err w s = Ret tt w' s' /\
    log w' = (disconnect_lines location err s ++ log w)%list /\
    connection_error_reported s' = true /\
    forall location' err', disconnect location' err' w' s' = Ret tt w' s'.
Proof.
  unfold disconnect, disconnect_lines, bind, self, update, logger, ret.
  destruct (connection_error_reported s) eqn:E; cbn [negb];
    [| destruct (location =? "unknown")];
    (eexists; eexists; split; [reflexivity |]);
    fields; rewrite ?E; (split; [reflexivity |]); (split; [reflexivity |]);
    intros location' err'; fields; rewrite ?E; reflexivity.
Qed.

(** ** A [query] that loses the connection *)

Lemma query_connection_lost service method params options w s msg :
  _connected s = true -> _connection s <> None -> lock s = false ->
  next_reply w (_resource s)
             (snd (sent_by_query service method params options s))
  = inl (ConnectionError msg) ->
  exists w' s',
    query service method params options w s = Ret JNull w' s' /\
    _connected s' = false /\ _connection s' = None /\
    _reconnected s' = false /\ _connection_epoch s' = 0%Q /\
    connection_error_reported s' = true /\ error s' = error s /\
    lock s' = false /\
    sent w' = sent_by_query service method params options s :: sent w /\
    log w' = (disconnect_lines "query" (ErrExc (ConnectionError msg)) s
              ++ (Warning, UnableToFetch (_host s))
              :: (Debug, QueryMsg (_host s) service method
                           (default_params params) (default_options options))
              :: log w)%list.
Proof.
  unfold next_reply, sent_by_query, disconnect_lines. cbn [snd].
  rewrite <- default_params_if, <- default_options_if.
  change ("query" =? "unknown") with false.
  intros C N L R.
  pose proof (connection_check_connected w s C N) as CC0.
  query_unfold w s CC; try discriminate.
  all: inversion CC0; subst w0 s0; clear CC0.
  rewrite L. fields. destruct (_connection s) as [c |]; [| congruence].
  fields. norm_self. rewrite R. fields.
  destruct (connection_error_reported s) eqn:E; fields;
    (eexists; eexists; split; [reflexivity |]); fields; rewrite ?E;
    repeat split.
Qed.

(** ** Properties of the life cycle *)

(** X1: entered with the lock free, [connect] returns [True] exactly
    when the login reply is an envelope with a null [error] and a truthy
    [authenticated]; it then leaves the client connected with the
    reconnect flag raised, the session it created, [error] empty, the
    failure flag cleared, the lock released, the login as its one post,
    and one log line: the "reconnected" warning if a failure had been
    reported, the "connected" debug line otherwise. *)
Theorem connect_true_iff_accepted w s :
  lock s = false ->
  (login_accepted (next_reply w (_resource s) (login_request s)) = true <->
   exists w' s', connect w s = Ret true w' s') /\
  (forall w' s',
      connect w s = Ret true w' s' ->
      _connected s' = true /\ _reconnected s' = true /\
      _connection s' = Some (Session (sessions_made w)) /\
      error s' = Some "" /\
      connection_error_reported s' = false /\
      lock s' = false /\
      sent w' = (_resource s, login_request s) :: sent w /\
      log w' = success_line s :: log w).
Proof.
  intros L. split; [split |].
  - intros A.
    destruct (connect_accepts w s L A) as (w' & s' & E & _).
    exists w', s'. exact E.
  - intros (w' & s' & E).
    destruct (connect_returns_true _ _ _ _ E) as (C & _).
    pose proof (connect_connected w s) as K. cbv zeta in K.
    rewrite E in K. cbn [final_api final_world] in K.
    destruct (K C) as (_ & A & _). exact A.
  - intros w' s' E.
    destruct (connect_returns_true _ _ _ _ E) as (C & _).
    pose proof (connect_connected w s) as K. cbv zeta in K.
    rewrite E in K. cbn [final_api final_world] in K.
    destruct (K C) as (_ & A & _).
    destruct (connect_accepts w s L A)
      as (w1 & s1 & E1 & P1 & P2 & P3 & P4 & P5 & P6 & _ & P8 & P9 & _).
    rewrite E in E1. inversion E1; subst. repeat split; assumption.
Qed.

(** X2: whenever [connect] returns [False], the client is disconnected
    with no session, [error] is ["cannot_connect"] or ["wrong_login"],
    the lock is released, the attempt is stamped with the clock reading
    taken on entry and the login was its one post.  The reconnect flag
    is left as it was, so a [True] that was not yet read is still
    reported by [has_reconnected]. *)
Theorem connect_false_state w s w' s' :
  connect w s = Ret false w' s' ->
  _connected s' = false /\ _connection s' = None /\
  (error s' = Some "cannot_connect" \/ error s' = Some "wrong_login") /\
  lock s' = false /\
  _connection_epoch s' = clock w (clock_reads w) /\
  sent w' = (_resource s, login_request s) :: sent w /\
  _reconnected s' = _reconnected s /\
  has_reconnected w' s'
  = Ret (_reconnected s) w' (set_reconnected false s').
Proof.
  intros E.
  destruct (connect_returns_false _ _ _ _ E)
    as (_ & C & N & K & L & R & T & P & _).
  repeat (split; [assumption |]).
  unfold has_reconnected, bind, self, update, ret. rewrite R.
  destruct (_reconnected s) eqn:F; [reflexivity |].
  f_equal. destruct s'. cbn in *. subst. reflexivity.
Qed.

(** X3: a [connect] that returned [False] opens the cooldown: at any
    later clock reading less than 58 seconds after the reading that
    [connect] took, [connection_check] returns [False] and [query]
    returns [None], and neither posts, logs or changes the client. *)
Theorem failed_connect_starts_cooldown w s w' s' w2
        service method params options :
  connect w s = Ret false w' s' ->
  (clock w2 (clock_reads w2) - clock w (clock_reads w) < 58)%Q ->
  connection_check w2 s' = Ret false (tick w2) s' /\
  query service method params options w2 s' = Ret JNull (tick w2) s'.
Proof.
  intros E T.
  destruct (connect_returns_false _ _ _ _ E)
    as (_ & C & _ & _ & _ & _ & P & _).
  assert (K : connection_check w2 s' = Ret false (tick w2) s').
  { apply connection_check_cooldown; [left; exact C |]. rewrite P. exact T. }
  split; [exact K |]. apply query_unchecked. exact K.
Qed.

(** X4: on a connected client with the lock free, a [query] whose
    reply is an envelope with a null [error], or with an [error] whose
    code is not 5001 or 5002, returns the envelope's [response] field.
    It posts the one request, logs the request and the reply at debug
    level and leaves the client exactly as it was; an application error
    in the envelope is not recorded anywhere. *)
Theorem query_returns_response_field
        service method params options w s data err r :
  _connected s = true -> _connection s <> None -> lock s = false ->
  next_reply w (_resource s)
             (snd (sent_by_query service method params options s))
  = inr (Json data) ->
  Py.getitem data "error" = inr err ->
  benign_error err = true ->
  Py.getitem data "response" = inr r ->
  query service method params options w s
  = Ret r
        (mkWorld (net w)
                 (sent_by_query service method params options s :: sent w)
                 (clock w) (clock_reads w) (sessions_made w)
                 ((Debug, QueryResponse (_host s) data)
                    :: (Debug, QueryMsg (_host s) service method
                                 (default_params params)
                                 (default_options options))
                    :: log w))
        s.
Proof.
  intros C N L R He Hb Hr.
  exact (query_exchange service method params options w s w s data err r
           (connection_check_connected w s C N) L R He Hb Hr).
Qed.

(** X5: while the client is not connected and fewer than 58 seconds
    have passed since [_connection_epoch], a [query] returns [None]
    having only read the clock: nothing is posted or logged and the
    client is unchanged, whether or not the lock is held. *)
Theorem query_in_cooldown service method params options w s :
  (_connected s = false \/ _connection s = None) ->
  (clock w (clock_reads w) - _connection_epoch s < 58)%Q ->
  query service method params options w s = Ret JNull (tick w) s.
Proof.
  intros D T. apply query_unchecked.
  exact (connection_check_cooldown w s D T).
Qed.

(** X6: a [query] on a client that is not connected, past the cooldown
    and with the lock free, logs in first: when the login is accepted
    and the request is answered with a benign envelope, it returns the
    [response] field, having posted the login and then the request and
    created one session; the client ends connected with the reconnect
    flag raised. *)
Theorem query_logs_in_first service method params options w s data err r :
  (_connected s = false \/ _connection s = None) ->
  (58 <= clock w (clock_reads w) - _connection_epoch s)%Q ->
  lock s = false ->
  login_accepted (next_reply w (_resource s) (login_request s)) = true ->
  net w (S (length (sent w))) (_resource s)
      (snd (sent_by_query service method params options s))
  = inr (Json data) ->
  Py.getitem data "error" = inr err ->
  benign_error err = true ->
  Py.getitem data "response" = inr r ->
  exists w' s',
    query service method params options w s = Ret r w' s' /\
    sent w' = sent_by_query service method params options s
              :: (_resource s, login_request s) :: sent w /\
    sessions_made w' = S (sessions_made w) /\
    _connected s' = true /\ _reconnected s' = true /\ lock s' = false.
Proof.
  intros D T L A R He Hb Hr.
  assert (CC : connection_check w s = connect (tick w) s).
  { apply connection_check_attempts; [exact D |].
    unfold _connection_retry_sec. lra. }
  destruct (connect_accepts (tick w) s L A)
    as (w1 & s1 & E & C1 & R1 & _ & _ & _ & L1 & _ & S1 & _ & N1 & U1 & M1).
  rewrite E in CC.
  assert (R' : next_reply w1 (_resource s1)
                 (snd (sent_by_query service method params options s1))
               = inr (Json data)).
  { unfold next_reply, sent_by_query in *. cbn [snd fst] in *.
    rewrite U1, N1, S1. exact R. }
  rewrite (query_exchange service method params options w s w1 s1 data err r
             CC L1 R' He Hb Hr).
  eexists; eexists; split; [reflexivity |].
  cbn [sent sessions_made]. unfold sent_by_query. rewrite U1, S1, M1.
  repeat split; assumption.
Qed.

(** X7: when [connect] fails inside a [query]'s [connection_check]
    (the client was not connected and past the cooldown), the [query]
    returns [None] with the client in the state [connect] left; the
    login is the only post, the request itself is never sent. *)
Theorem query_gives_up_when_login_fails
        service method params options w s w' s' :
  (_connected s = false \/ _connection s = None) ->
  (58 <= clock w (clock_reads w) - _connection_epoch s)%Q ->
  connect (tick w) s = Ret false w' s' ->
  query service method params options w s = Ret JNull w' s' /\
  sent w' = (_resource s, login_request s) :: sent w /\
  _connected s' = false.
Proof.
  intros D T E.
  assert (CC : connection_check w s = connect (tick w) s).
  { apply connection_check_attempts; [exact D |].
    unfold _connection_retry_sec. lra. }
  assert (K : connection_check w s = Ret false w' s').
  { rewrite CC. exact E. }
  destruct (connect_returns_false _ _ _ _ E)
    as (_ & C & _ & _ & _ & _ & _ & P & _).
  split; [exact (query_unchecked _ _ _ _ _ _ _ _ K) | split; assumption].
Qed.

(** X8: on a connected client with the lock free, every [query] that is
    answered with an error whose code is 5001 or 5002 ends blocked in
    [Lock.acquire]: the request is its only post, and the client is left
    with the lock held and marked disconnected. *)
Theorem expired_code_blocks_query
        service method params options w s data err code :
  _connected s = true -> _connection s <> None -> lock s = false ->
  next_reply w (_resource s)
             (snd (sent_by_query service method params options s))
  = inr (Json data) ->
  Py.getitem data "error" = inr err -> Py.is_not_none err = true ->
  Py.getitem err "code" = inr code ->
  session_expired code = true ->
  exists w' s',
    query service method params options w s = Deadlock w' s' /\
    sent w' = sent_by_query service method params options s :: sent w /\
    wedged s'.
Proof.
  intros C N L R He Hn Hc Hx.
  destruct (query_expired_blocks service method params options w s data err
              code C N L R He Hn Hc Hx) as (w' & s' & E & P & L' & C' & _).
  exists w', s'. repeat split; assumption.
Qed.

(** X9: an exception that leaves [connect] leaves the lock held and
    the client marked disconnected.  From then on every [connect]
    blocks, and after any sequence of calls the lock is still held and
    the client still disconnected: it never connects again. *)
Theorem exception_in_connect_wedges_client w s e w' s' :
  connect w s = Raise e w' s' ->
  wedged s' /\
  (forall w2, connect w2 s'
              = Deadlock (connect_entry_world w2) (connect_entry_api w2 s')) /\
  (forall cs w2 obs w3 s3,
      run_calls cs w2 s' = (obs, w3, s3) -> wedged s3).
Proof.
  intros E. destruct (connect_raises_locked _ _ _ _ _ E) as (_ & L & C).
  assert (W : wedged s') by (split; assumption).
  split; [exact W | split].
  - intros w2. apply connect_locked. exact L.
  - intros cs w2 obs w3 s3 R. exact (run_calls_wedged cs _ _ _ _ _ W R).
Qed.

(** X13: no sequence of calls changes the host, the protocol flag, the
    user name or the password, so every request of a client goes to the
    one address fixed by [__init__]. *)
Theorem configuration_never_changes cs w s :
  configuration (snd (run_calls cs w s)) = configuration s /\
  _resource (snd (run_calls cs w s)) = _resource s.
Proof.
  destruct (run_calls cs w s) as [[obs w'] s'] eqn:R. cbn [snd].
  pose proof (run_calls_configuration cs _ _ _ _ _ R) as H.
  split; [exact H |].
  unfold configuration in H. inversion H as [[Hh Hs Hu Hp]].
  unfold _resource, _protocol. rewrite Hh, Hs. reflexivity.
Qed.

(** X14: on a connected client with the lock free, a [query] whose
    post raises a connection error returns [None] after a
    [disconnect]: the client is disconnected with no session, the
    reconnect flag cleared and the failure flag set, [error] is left as
    it was, and the log gains the "unable to fetch" warning and, unless
    a failure was already reported, one error line.  The epoch is reset
    to zero, so unlike a failed [connect] this opens no cooldown: the
    next [connection_check] goes straight to [connect]. *)
Theorem lost_connection_allows_immediate_retry
        service method params options w s msg :
  _connected s = true -> _connection s <> None -> lock s = false ->
  next_reply w (_resource s)
             (snd (sent_by_query service method params options s))
  = inl (ConnectionError msg) ->
  exists w' s',
    query service method params options w s = Ret JNull w' s' /\
    _connected s' = false /\ _connection s' = None /\
    _reconnected s' = false /\
    connection_error_reported s' = true /\ error s' = error s /\
    log w' = (disconnect_lines "query" (ErrExc (ConnectionError msg)) s
              ++ (Warning, UnableToFetch (_host s))
              :: (Debug, QueryMsg (_host s) service method
                           (default_params params) (default_options options))
              :: log w)%list /\
    forall w2,
      (58 <= clock w2 (clock_reads w2))%Q ->
      connection_check w2 s' = connect (tick w2) s'.
Proof.
  intros C N L R.
  destruct (query_connection_lost service method params options w s msg
              C N L R)
    as (w' & s' & E & C' & N' & R' & T' & F' & K' & _ & _ & G').
  exists w', s'. repeat (split; [assumption |]).
  intros w2 H. apply connection_check_attempts; [left; exact C' |].
  rewrite T'. unfold _connection_retry_sec. lra.
Qed.


(** ** Concrete runs of the life-cycle properties *)

Lemma appliance_never_expires : never_expires appliance.
Proof.
  intros n url body. cbn [appliance net].
  destruct (is_login_body body); reflexivity.
Qed.

Lemma connect_true_iff_accepted_witness :
  lock omv = false /\
  exists w' s', connect appliance omv = Ret true w' s'.
Proof.
  split; [reflexivity |].
  apply (proj1 (proj1 (connect_true_iff_accepted appliance omv eq_refl))).
  vm_compute. reflexivity.
Defined.

Lemma connect_false_state_witness :
  connect (scripted [denied] [1000%Q]) omv
  = Ret false (fst refused) (snd refused) /\
  _connected (snd refused) = false /\ _connection (snd refused) = None.
Proof.
  assert (E : connect (scripted [denied] [1000%Q]) omv
              = Ret false (fst refused) (snd refused))
    by (vm_compute; reflexivity).
  split; [exact E |].
  destruct (connect_false_state _ _ _ _ E) as (C & N & _).
  split; [exact C | exact N].
Defined.

Lemma failed_connect_starts_cooldown_witness :
  connection_check (scripted [] [1030%Q]) (snd refused)
  = Ret false (tick (scripted [] [1030%Q])) (snd refused).
Proof.
  assert (E : connect (scripted [denied] [1000%Q]) omv
              = Ret false (fst refused) (snd refused))
    by (vm_compute; reflexivity).
  assert (T : (clock (scripted [] [1030%Q])
                     (clock_reads (scripted [] [1030%Q]))
               - clock (scripted [denied] [1000%Q])
                       (clock_reads (scripted [denied] [1000%Q])) < 58)%Q)
    by (vm_compute; reflexivity).
  exact (proj1 (failed_connect_starts_cooldown _ _ _ _ _
                  "system" "info" JNull JNull E T)).
Defined.

Lemma query_returns_response_field_witness :
  exists w',
    query "system" "info" (JObject []) JNull (fst logged_in) (snd logged_in)
    = Ret (JObject [ ("version", JString "5.6") ]) w' (snd logged_in).
Proof.
  assert (C : _connected (snd logged_in) = true) by (vm_compute; reflexivity).
  assert (N : _connection (snd logged_in) <> None)
    by (vm_compute; discriminate).
  assert (L : lock (snd logged_in) = false) by (vm_compute; reflexivity).
  assert (R : next_reply (fst logged_in) (_resource (snd logged_in))
                (snd (sent_by_query "system" "info" (JObject []) JNull
                                    (snd logged_in)))
              = info_reply) by (vm_compute; reflexivity).
  eexists.
  exact (query_returns_response_field "system" "info" (JObject []) JNull
           _ _ _ JNull _ C N L R eq_refl eq_refl eq_refl).
Defined.

Lemma query_in_cooldown_witness :
  query "system" "info" JNull JNull (scripted [] [10%Q]) omv
  = Ret JNull (tick (scripted [] [10%Q])) omv.
Proof.
  apply query_in_cooldown.
  - left. reflexivity.
  - vm_compute. reflexivity.
Defined.

Lemma query_logs_in_first_witness :
  exists w' s',
    query "system" "info" JNull JNull appliance omv
    = Ret (JObject [ ("version", JString "5.6") ]) w' s' /\
    _connected s' = true.
Proof.
  assert (T : (58 <= clock appliance (clock_reads appliance)
                     - _connection_epoch omv)%Q)
    by (vm_compute; discriminate).
  assert (A : login_accepted
                (next_reply appliance (_resource omv) (login_request omv))
              = true) by (vm_compute; reflexivity).
  assert (R : net appliance (S (length (sent appliance))) (_resource omv)
                  (snd (sent_by_query "system" "info" JNull JNull omv))
              = info_reply) by (vm_compute; reflexivity).
  destruct (query_logs_in_first "system" "info" JNull JNull appliance omv
              _ JNull _ (or_introl eq_refl) T eq_refl A R
              eq_refl eq_refl eq_refl)
    as (w' & s' & E & _ & _ & C & _).
  exists w', s'. split; [exact E | exact C].
Defined.

Lemma query_gives_up_when_login_fails_witness :
  exists w' s',
    query "system" "info" JNull JNull unreachable omv = Ret JNull w' s' /\
    length (sent w') = 1.
Proof.
  assert (T : (58 <= clock unreachable (clock_reads unreachable)
                     - _connection_epoch omv)%Q)
    by (vm_compute; discriminate).
  assert (E : connect (tick unreachable) omv
              = Ret false (final_world (connect (tick unreachable) omv))
                          (final_api (connect (tick unreachable) omv)))
    by (vm_compute; reflexivity).
  destruct (query_gives_up_when_login_fails "system" "info" JNull JNull
              unreachable omv _ _ (or_introl eq_refl) T E) as (Q & P & _).
  eexists; eexists; split; [exact Q |]. rewrite P. reflexivity.
Defined.

Lemma expired_code_blocks_query_witness :
  exists w' s',
    query "system" "info" JNull JNull (fst expiring) (snd expiring)
    = Deadlock w' s' /\ wedged s'.
Proof.
  assert (C : _connected (snd expiring) = true) by (vm_compute; reflexivity).
  assert (N : _connection (snd expiring) <> None)
    by (vm_compute; discriminate).
  assert (L : lock (snd expiring) = false) by (vm_compute; reflexivity).
  assert (R : next_reply (fst expiring) (_resource (snd expiring))
                (snd (sent_by_query "system" "info" JNull JNull
                                    (snd expiring)))
              = expired_reply 5001) by (vm_compute; reflexivity).
  destruct (expired_code_blocks_query "system" "info" JNull JNull _ _ _
              (error_object 5001 "Session expired") (JInt 5001)
              C N L R eq_refl eq_refl eq_refl eq_refl)
    as (w' & s' & E & _ & W).
  exists w', s'. split; [exact E | exact W].
Defined.

Lemma exception_in_connect_wedges_client_witness :
  connect garbled omv
  = Raise JSONDecodeError (final_world (connect garbled omv))
          (final_api (connect garbled omv)) /\
  wedged (final_api (connect garbled omv)).
Proof.
  assert (E : connect garbled omv
              = Raise JSONDecodeError (final_world (connect garbled omv))
                      (final_api (connect garbled omv)))
    by (vm_compute; reflexivity).
  split; [exact E |].
  exact (proj1 (exception_in_connect_wedges_client _ _ _ _ _ E)).
Defined.

Lemma returning_call_keeps_lock_witness :
  lock (final_api (run_call (CallQuery "system" "info" JNull JNull)
                            appliance omv))
  = lock omv.
Proof.
  assert (E : run_call (CallQuery "system" "info" JNull JNull) appliance omv
              = Ret (VJson (JObject [ ("version", JString "5.6") ]))
                    (final_world (run_call (CallQuery "system" "info" JNull JNull)
                                           appliance omv))
                    (final_api (run_call (CallQuery "system" "info" JNull JNull)
                                         appliance omv)))
    by (vm_compute; reflexivity).
  exact (returning_call_keeps_lock _ _ _ _ _ _ E).
Defined.

Lemma orderly_calls_all_return_witness :
  forallb is_returned (fst (fst (run_calls polling appliance omv))) = true /\
  lock (snd (run_calls polling appliance omv)) = false.
Proof.
  assert (E : run_calls polling appliance omv
              = (fst (fst (run_calls polling appliance omv)),
                 snd (fst (run_calls polling appliance omv)),
                 snd (run_calls polling appliance omv)))
    by (vm_compute; reflexivity).
  destruct (orderly_calls_all_return polling appliance omv _ _ _
              appliance_orderly appliance_never_expires eq_refl E)
    as (A & _ & L).
  split; [exact A | exact L].
Defined.

Lemma lost_connection_allows_immediate_retry_witness :
  exists w' s',
    query "system" "info" JNull JNull (fst dropping) (snd dropping)
    = Ret JNull w' s' /\
    _connected s' = false.
Proof.
  assert (C : _connected (snd dropping) = true) by (vm_compute; reflexivity).
  assert (N : _connection (snd dropping) <> None)
    by (vm_compute; discriminate).
  assert (L : lock (snd dropping) = false) by (vm_compute; reflexivity).
  assert (R : next_reply (fst dropping) (_resource (snd dropping))
                (snd (sent_by_query "system" "info" JNull JNull
                                    (snd dropping)))
              = inl (ConnectionError "Connection refused"))
    by (vm_compute; reflexivity).
  destruct (lost_connection_allows_immediate_retry "system" "info" JNull JNull
              _ _ _ C N L R) as (w' & s' & E & C' & _).
  exists w', s'. split; [exact E | exact C'].
Defined.

(** ** Exceptions inside a [query] *)

Lemma query_blocks_when_locked service method params options w s :
  _connected s = true -> _connection s <> None -> lock s = true ->
  query service method params options w s = Deadlock w s.
Proof.
  intros C N L.
  pose proof (connection_check_connected w s C N) as CC0.
  query_unfold w s CC; try discriminate.
  inversion CC0; subst. rewrite L. reflexivity.
Qed.

(** X16: on a connected client with the lock free, a [query] whose post
    raises anything but a connection error, or whose reply is not JSON,
    lets the exception out with the lock still held and the client
    still marked connected.  Every later [query] then blocks in
    [Lock.acquire] before it posts or logs anything. *)
Theorem exception_in_query_blocks_later_queries
        service method params options w s :
  _connected s = true -> _connection s <> None -> lock s = false ->
  unhandled_reply
    (next_reply w (_resource s)
                (snd (sent_by_query service method params options s)))
  = true ->
  exists e w' s',
    query service method params options w s = Raise e w' s' /\
    lock s' = true /\ _connected s' = true /\ _connection s' = _connection s /\
    forall service' method' params' options' w2,
      query service' method' params' options' w2 s' = Deadlock w2 s'.
Proof.
  unfold next_reply, sent_by_query, unhandled_reply. cbn [snd].
  rewrite <- default_params_if, <- default_options_if.
  intros C N L U.
  pose proof (connection_check_connected w s C N) as CC0.
  assert (G : forall s', lock s' = true -> _connected s' = true ->
                         _connection s' = _connection s ->
              forall service' method' params' options' w2,
                query service' method' params' options' w2 s'
                = Deadlock w2 s').
  { intros s' L' C' N' service' method' params' options' w2.
    apply query_blocks_when_locked; congruence. }
  revert U.
  query_unfold w s CC; try discriminate.
  all: inversion CC0; subst w0 s0; clear CC0.
  rewrite L. fields. destruct (_connection s) as [c |] eqn:Nc; [| congruence].
  fields. norm_self.
  destruct (net w (length (sent w)) (_resource s) _) as [[] | []];
    intros U; try discriminate U; fields;
    (eexists; eexists; eexists; split; [reflexivity |]); fields;
    (split; [reflexivity |]); (split; [exact C |]);
    (split; [exact Nc |]); apply G; fields; assumption.
Qed.

(** X17: on a connected client with the lock free, a [query] that is
    answered with the JSON value [null] raises [TypeError], but only
    after it has released the lock: the client is left exactly as it
    was and can go on. *)
Theorem null_reply_raises_after_release service method params options w s :
  _connected s = true -> _connection s <> None -> lock s = false ->
  next_reply w (_resource s)
             (snd (sent_by_query service method params options s))
  = inr (Json JNull) ->
  exists w', query service method params options w s = Raise TypeError w' s.
Proof.
  unfold next_reply, sent_by_query. cbn [snd].
  rewrite <- default_params_if, <- default_options_if.
  intros C N L R.
  pose proof (connection_check_connected w s C N) as CC0.
  query_unfold w s CC; try discriminate.
  all: inversion CC0; subst w0 s0; clear CC0.
  rewrite L. fields. destruct (_connection s) as [c |]; [| congruence].
  fields. norm_self. rewrite R. fields.
  cbn [Py.is_not_none Py.getitem]. fields.
  rewrite (set_lock_release s L). eexists. reflexivity.
Qed.

(** ** What [connection_check] returns *)

Lemma connect_returns_connected w s b w' s' :
  connect w s = Ret b w' s' -> _connected s' = b.
Proof.
  destruct b; intros E.
  - exact (proj1 (connect_returns_true _ _ _ _ E)).
  - destruct (connect_returns_false _ _ _ _ E) as (_ & C & _). exact C.
Qed.

(** X18: for a client that satisfies the session invariant, the value
    [connection_check] returns is the value [connected] reports
    afterwards. *)
Theorem connection_check_reports_connected w s b w' s' :
  session_invariant s ->
  connection_check w s = Ret b w' s' ->
  _connected s' = b /\ connected w' s' = Ret b w' s'.
Proof.
  intros I E.
  assert (K : _connected s' = b).
  { revert E. unfold connection_check, bind, self, time, ret.
    destruct (_connected s) eqn:C.
    - destruct (_connection s) eqn:N; [| exfalso; exact (I C N)].
      cbn [negb orb]. intros E; inversion E; subst. exact C.
    - cbn [negb orb]. destruct (negb _).
      + intros E; inversion E; subst. exact C.
      + pose proof (connect_returns_connected (tick w) s) as H.
        unfold tick in H.
        destruct (connect _ s) as [[|] w1 s1| | |]; try discriminate;
          intros E; inversion E; subst; exact (H _ _ _ eq_refl). }
  split; [exact K |].
  unfold connected, bind, self, ret. rewrite K. reflexivity.
Qed.

Lemma exception_in_query_blocks_later_queries_witness :
  exists e w' s',
    query "system" "info" JNull JNull
          (fst (logged_in_to [inr NotJson])) (snd (logged_in_to [inr NotJson]))
    = Raise e w' s' /\
    lock s' = true.
Proof.
  assert (C : _connected (snd (logged_in_to [inr NotJson])) = true)
    by (vm_compute; reflexivity).
  assert (N : _connection (snd (logged_in_to [inr NotJson])) <> None)
    by (vm_compute; discriminate).
  assert (L : lock (snd (logged_in_to [inr NotJson])) = false)
    by (vm_compute; reflexivity).
  assert (U : unhandled_reply
                (next_reply (fst (logged_in_to [inr NotJson]))
                   (_resource (snd (logged_in_to [inr NotJson])))
                   (snd (sent_by_query "system" "info" JNull JNull
                                       (snd (logged_in_to [inr NotJson])))))
              = true) by (vm_compute; reflexivity).
  destruct (exception_in_query_blocks_later_queries
              "system" "info" JNull JNull _ _ C N L U)
    as (e & w' & s' & E & L' & _).
  exists e, w', s'. split; [exact E | exact L'].
Defined.

Lemma null_reply_raises_after_release_witness :
  exists w',
    query "system" "info" JNull JNull
          (fst (logged_in_to [inr (Json JNull)]))
          (snd (logged_in_to [inr (Json JNull)]))
    = Raise TypeError w' (snd (logged_in_to [inr (Json JNull)])).
Proof.
  apply null_reply_raises_after_release.
  - vm_compute. reflexivity.
  - vm_compute. discriminate.
  - vm_compute. reflexivity.
  - vm_compute. reflexivity.
Defined.

Lemma connection_check_reports_connected_witness :
  session_invariant omv /\
  connected (final_world (connection_check appliance omv))
            (final_api (connection_check appliance omv))
  = Ret true (final_world (connection_check appliance omv))
        (final_api (connection_check appliance omv)).
Proof.
  assert (I : session_invariant omv) by (intros C; discriminate C).
  assert (E : connection_check appliance omv
              = Ret true (final_world (connection_check appliance omv))
                    (final_api (connection_check appliance omv)))
    by (vm_compute; reflexivity).
  split; [exact I |].
  exact (proj2 (connection_check_reports_connected _ _ _ _ _ I E)).
Defined.

(** ** Error reporting across a streak of failed logins *)

(** Subscripting raises [TypeError] or [KeyError], never a
    connection error. *)
Lemma getitem_not_connection_error v k msg :
  Py.getitem v k <> inl (ConnectionError msg).
Proof.
  destruct v; cbn; try discriminate.
  destruct (Py.lookup k kvs); discriminate.
Qed.

Lemma connect_false_reporting w s w' s' :
  connect w s = Ret false w' s' ->
  connection_error_reported s'
  = connection_error_reported s
    || envelope_error (next_reply w (_resource s) (login_request s)) /\
  unable_lines (log w')
  = unable_lines (log w)
    + (if negb (connection_error_reported s) && connection_error_reported s'
       then 1 else 0).
Proof.
  unfold envelope_error, next_reply.
  unfold connect. unfold_steps.
  repeat first [progress fields | progress norm_self | step];
    intros H; inversion H; subst; clear H;
    destruct (connection_error_reported s) eqn:R; cbn in *;
    try discriminate; rewrite ?R; try (split; [reflexivity | lia]);
    try congruence.
  all: exfalso;
    match goal with
    | E : Py.getitem _ _ = inl (ConnectionError _) |- _ =>
        exact (getitem_not_connection_error _ _ _ E)
    end.
Qed.

Lemma connect_request_fixed w s :
  _resource (final_api (connect w s)) = _resource s /\
  login_request (final_api (connect w s)) = login_request s.
Proof.
  pose proof (connect_configuration w s) as H.
  unfold configuration in H. inversion H as [[Hh Hs Hu Hp]].
  unfold _resource, _protocol, login_request. rewrite Hh, Hs, Hu, Hp.
  split; reflexivity.
Qed.

Lemma streak_replies_step n w s w1 s1 :
  connect w s = Ret false w1 s1 ->
  streak_replies (S n) w s
  = next_reply w (_resource s) (login_request s) :: streak_replies n w1 s1.
Proof.
  intros E.
  destruct (connect_returns_false _ _ _ _ E)
    as (_ & _ & _ & _ & _ & _ & _ & P & N & _).
  destruct (connect_request_fixed w s) as [U Q].
  rewrite E in U, Q. cbn [final_api] in U, Q.
  unfold streak_replies, next_reply. cbn [seq map].
  rewrite Nat.add_0_r. f_equal.
  rewrite <- seq_shift, map_map. apply map_ext. intros i.
  rewrite P, N, U, Q. cbn [length]. rewrite Nat.add_succ_r. reflexivity.
Qed.

Lemma failed_streak_exact n : forall w s obs w' s',
  run_calls (repeat CallConnect n) w s = (obs, w', s') ->
  obs = repeat (Returned (VBool false)) n ->
  connection_error_reported s'
  = connection_error_reported s
    || existsb envelope_error (streak_replies n w s) /\
  unable_lines (log w')
  = unable_lines (log w)
    + (if negb (connection_error_reported s)
          && existsb envelope_error (streak_replies n w s)
       then 1 else 0).
Proof.
  induction n as [| n IH]; intros w s obs w' s' R O; cbn [repeat run_calls] in *.
  - inversion R; subst. unfold streak_replies. cbn.
    rewrite orb_false_r, andb_false_r. split; [reflexivity | lia].
  - unfold run_call at 1, fmap, bind, ret in R.
    destruct (connect w s) as [b w1 s1 | e w1 s1 | w1 s1 | w1 s1] eqn:C;
      try destruct (run_calls (repeat CallConnect n) w1 s1)
        as [[obs1 w2] s2] eqn:R1;
      try (exfalso; congruence).
    injection R as E1 E2 E3. subst w' s'. rewrite O in E1.
    injection E1 as Eb Eo. subst b obs1.
    destruct (connect_false_reporting _ _ _ _ C) as [F U].
    destruct (IH _ _ _ _ _ R1 eq_refl) as [F1 U1].
    rewrite (streak_replies_step n w s w1 s1 C). cbn [existsb].
    rewrite F1, U1, U, F.
    destruct (connection_error_reported s),
             (envelope_error (next_reply w (_resource s) (login_request s))),
             (existsb envelope_error (streak_replies n w1 s1));
      cbn; split; (reflexivity || lia).
Qed.

(** An envelope error on the login: what [connect] writes to the log. *)
Lemma connect_envelope_error_log w s data err message :
  lock s = false ->
  next_reply w (_resource s) (login_request s) = inr (Json data) ->
  Py.getitem data "error" = inr err -> Py.is_not_none err = true ->
  Py.getitem err "message" = inr message ->
  exists w' s',
    connect w s = Ret false w' s' /\
    connection_error_reported s' = true /\
    log w' = ((if connection_error_reported s then []
               else [(Error, UnableToConnect (_host s) message)])
              ++ log w)%list.
Proof.
  unfold next_reply. intros L N He Hn Hm.
  unfold connect. unfold_steps. fields. rewrite L. fields. norm_self.
  rewrite N. fields. rewrite He. fields. rewrite Hn. fields.
  destruct (connection_error_reported s) eqn:R; fields;
    repeat (first [rewrite He | rewrite Hm]; fields);
    destruct (Py.str message =? "Incorrect username or password");
    (eexists; eexists; split; [reflexivity |]); fields; rewrite ?R;
    split; reflexivity.
Qed.

(** C4 (as the code has it): in a streak of [connect] calls that all
    return [False], the "unable to connect" line of an envelope error
    is written exactly once if [connection_error_reported] was clear
    when the streak began and some failure of the streak is an envelope
    error, and not at all otherwise; the flag ends set exactly if it
    was set before or such a failure occurred.  Call by call: a failed
    [connect] sets the flag exactly when its login reply is an envelope
    error, and writes the line exactly when it takes the flag from clear
    to set; the line carries the host and the appliance's message.  No
    call takes the flag from set to clear unless a login completes
    within it, and [disconnect] always leaves it set. *)
Theorem unable_to_connect_logged_once :
  (forall n w s obs w' s',
      run_calls (repeat CallConnect n) w s = (obs, w', s') ->
      obs = repeat (Returned (VBool false)) n ->
      connection_error_reported s'
      = connection_error_reported s
        || existsb envelope_error (streak_replies n w s) /\
      unable_lines (log w')
      = unable_lines (log w)
        + (if negb (connection_error_reported s)
              && existsb envelope_error (streak_replies n w s)
           then 1 else 0)) /\
  (forall w s w' s',
      connect w s = Ret false w' s' ->
      connection_error_reported s'
      = connection_error_reported s
        || envelope_error (next_reply w (_resource s) (login_request s)) /\
      unable_lines (log w')
      = unable_lines (log w)
        + (if negb (connection_error_reported s)
              && connection_error_reported s'
           then 1 else 0)) /\
  (forall w s data err message,
      lock s = false ->
      next_reply w (_resource s) (login_request s) = inr (Json data) ->
      Py.getitem data "error" = inr err -> Py.is_not_none err = true ->
      Py.getitem err "message" = inr message ->
      exists w' s',
        connect w s = Ret false w' s' /\
        connection_error_reported s' = true /\
        log w' = ((if connection_error_reported s then []
                   else [(Error, UnableToConnect (_host s) message)])
                  ++ log w)%list) /\
  (forall c w s,
      connection_error_reported s = true ->
      connection_error_reported (final_api (run_call c w s)) = false ->
      successes (log w) < successes (log (final_world (run_call c w s)))) /\
  (forall location err w s,
      connection_error_reported (final_api (disconnect location err w s)) = true).
Proof.
  split; [exact failed_streak_exact |].
  split; [exact connect_false_reporting |].
  split; [exact connect_envelope_error_log |].
  split.
  - intros c w s H0 H1.
    destruct (run_call_flags c w s) as [L F].
    destruct (Nat.eq_dec (successes (log (final_world (run_call c w s))))
                         (successes (log w))) as [E | E]; [| lia].
    destruct (F E) as [_ F2]. rewrite (F2 H0) in H1. discriminate.
  - intros location err w s.
    destruct (disconnect_returns location err w s)
      as (w' & s' & E & _ & _ & _ & _ & R & _).
    rewrite E. exact R.
Qed.

Lemma unable_to_connect_logged_once_witness :
  fst (fst denied_twice) = repeat (Returned (VBool false)) 2 /\
  connection_error_reported (snd denied_twice) = true /\
  unable_lines (log (snd (fst denied_twice))) = 1.
Proof.
  assert (O : fst (fst denied_twice) = repeat (Returned (VBool false)) 2)
    by (vm_compute; reflexivity).
  assert (E : run_calls (repeat CallConnect 2)
                (scripted [denied; denied] [1000%Q; 1060%Q]) omv
              = (fst (fst denied_twice), snd (fst denied_twice),
                 snd denied_twice))
    by (vm_compute; reflexivity).
  split; [exact O |].
  destruct (proj1 unable_to_connect_logged_once 2 _ _ _ _ _ E O) as [F U].
  split.
  - rewrite F. vm_compute. reflexivity.
  - rewrite U. vm_compute. reflexivity.
Defined.

(** ** Failures on an orderly transport *)

Lemma connection_check_true_connected w s w' s' :
  connection_check w s = Ret true w' s' -> _connected s' = true.
Proof.
  unfold connection_check, bind, self, time, ret.
  destruct (_connected s) eqn:C; destruct (_connection s) eqn:N;
    cbn [negb orb].
  1: intros H; inversion H; subst; exact C.
  all: destruct (negb _); [discriminate |];
    pose proof (connect_returns_connected (tick w) s) as H; unfold tick in H;
    destruct (connect _ s) as [[|] w1 s1| | |]; try discriminate;
    intros E; inversion E; subst; exact (H _ _ _ eq_refl).
Qed.

(** A [query] that returns with the client disconnected returns [None]. *)
Lemma query_disconnected_null service method params options w s v w' s' :
  query service method params options w s = Ret v w' s' ->
  _connected s' = false -> v = JNull.
Proof.
  pose proof (connection_check_true_connected w s) as T.
  query_cases w s CC; intros E; inversion E; subst; clear E; fields;
    intros D; try reflexivity;
    rewrite (T _ _ eq_refl) in D; discriminate.
Qed.

(** C3 (as the code has it): with a transport that either raises a
    connection error or answers with a well-formed envelope that carries
    no expired-session code, and the lock free on entry, every failure
    resolves to a returned value.  [connect] returns [True] or [False],
    the value [connected] then reports, with the lock released; with
    [False] the session is dropped and [error] is ["cannot_connect"] or
    ["wrong_login"].  [query] returns with the lock released, and
    returns [None] whenever it leaves the client disconnected.  [error]
    is recorded by [connect] only: a connection error on the login gives
    ["cannot_connect"] (["wrong_login"] if the text of the exception is
    the login message); a [query] whose login fails returns [None] in
    the state [connect] left, with [connect]'s [error]; a [query] whose
    request meets a connection error returns [None] with the client
    disconnected and [error] left as it was. *)
Theorem failures_resolve_on_orderly_transport w s :
  orderly_transport w -> never_expires w -> lock s = false ->
  (exists b w' s',
      connect w s = Ret b w' s' /\
      _connected s' = b /\ lock s' = false /\
      (b = false ->
       _connection s' = None /\
       (error s' = Some "cannot_connect" \/ error s' = Some "wrong_login"))) /\
  (forall service method params options,
      exists v w' s',
        query service method params options w s = Ret v w' s' /\
        lock s' = false /\
        (_connected s' = false -> v = JNull)) /\
  (forall msg,
      next_reply w (_resource s) (login_request s)
      = inl (ConnectionError msg) ->
      exists w' s',
        connect w s = Ret false w' s' /\
        error s' = Some (if msg =? "Incorrect username or password"
                         then "wrong_login" else "cannot_connect") /\
        _connected s' = false /\ _connection s' = None) /\
  (forall service method params options w1 s1,
      (_connected s = false \/ _connection s = None) ->
      (58 <= clock w (clock_reads w) - _connection_epoch s)%Q ->
      connect (tick w) s = Ret false w1 s1 ->
      query service method params options w s = Ret JNull w1 s1 /\
      (error s1 = Some "cannot_connect" \/ error s1 = Some "wrong_login")) /\
  (forall service method params options msg,
      _connected s = true -> _connection s <> None ->
      next_reply w (_resource s)
                 (snd (sent_by_query service method params options s))
      = inl (ConnectionError msg) ->
      exists w' s',
        query service method params options w s = Ret JNull w' s' /\
        _connected s' = false /\ _connection s' = None /\
        error s' = error s).
Proof.
  intros O X L. split; [| split; [| split; [| split]]].
  - pose proof (connect_returns_orderly w s O L) as H.
    destruct (connect w s) as [b w' s'| | |] eqn:E; try contradiction.
    destruct H as [L' _]. exists b, w', s'.
    split; [reflexivity |].
    split; [exact (connect_returns_connected _ _ _ _ _ E) |].
    split; [exact L' |].
    intros ->.
    destruct (connect_returns_false _ _ _ _ E) as (_ & _ & N & K & _).
    split; assumption.
  - intros service method params options.
    pose proof (query_returns_orderly service method params options w s O X L)
      as H.
    destruct (query service method params options w s) as [v w' s'| | |] eqn:E;
      try contradiction.
    destruct H as [L' _]. exists v, w', s'.
    split; [reflexivity |]. split; [exact L' |].
    exact (query_disconnected_null _ _ _ _ _ _ _ _ _ E).
  - intros msg R.
    destruct (connect_connection_error w s msg L R)
      as (w' & s' & E & K & C & N & _).
    exists w', s'. auto.
  - intros service method params options w1 s1 D T E.
    assert (CC : connection_check w s = Ret false w1 s1).
    { rewrite <- E. apply connection_check_attempts; [exact D |].
      unfold _connection_retry_sec. lra. }
    destruct (connect_returns_false _ _ _ _ E) as (_ & _ & _ & K & _).
    split; [exact (query_unchecked _ _ _ _ _ _ _ _ CC) | exact K].
  - intros service method params options msg C N R.
    destruct (query_connection_error service method params options w s msg
                C N L R) as (w' & s' & E & C' & N' & _ & K).
    exists w', s'. auto.
Qed.

(** ** Scripted appliances that are orderly *)

Lemma scripted_orderly replies times :
  forallb (fun r => orderly_reply true r && orderly_reply false r) replies
  = true ->
  orderly_transport (scripted replies times).
Proof.
  intros H n url body. cbn [scripted net].
  destruct (nth_in_or_default n replies
              (inl (ConnectionError "Connection refused"))) as [I | E].
  - rewrite forallb_forall in H. specialize (H _ I).
    apply andb_true_iff in H. destruct H as [H1 H2].
    destruct (is_login_body body); assumption.
  - rewrite E. reflexivity.
Qed.

Lemma scripted_never_expires replies times :
  forallb expiry_free_reply replies = true ->
  never_expires (scripted replies times).
Proof.
  intros H n url body. cbn [scripted net].
  destruct (nth_in_or_default n replies
              (inl (ConnectionError "Connection refused"))) as [I | E].
  - rewrite forallb_forall in H. exact (H _ I).
  - rewrite E. reflexivity.
Qed.

Lemma failures_resolve_on_orderly_transport_witness :
  (exists w' s',
      connect unreachable omv = Ret false w' s' /\
      error s' = Some "cannot_connect" /\ _connected s' = false) /\
  (exists w' s',
      query "system" "info" JNull JNull unreachable omv = Ret JNull w' s' /\
      (error s' = Some "cannot_connect" \/ error s' = Some "wrong_login")) /\
  (exists w' s',
      query "system" "info" JNull JNull (fst dropping) (snd dropping)
      = Ret JNull w' s' /\
      _connected s' = false /\ error s' = error (snd dropping)).
Proof.
  assert (O : orderly_transport unreachable)
    by (apply scripted_orderly; reflexivity).
  assert (X : never_expires unreachable)
    by (apply scripted_never_expires; reflexivity).
  destruct (failures_resolve_on_orderly_transport unreachable omv O X eq_refl)
    as (_ & _ & A3 & A4 & _).
  assert (O' : orderly_transport (fst dropping)).
  { intros n url body. unfold dropping. cbn [fst]. rewrite connect_net.
    apply scripted_orderly. reflexivity. }
  assert (X' : never_expires (fst dropping)).
  { intros n url body. unfold dropping. cbn [fst]. rewrite connect_net.
    apply scripted_never_expires. reflexivity. }
  assert (L' : lock (snd dropping) = false) by (vm_compute; reflexivity).
  destruct (failures_resolve_on_orderly_transport _ _ O' X' L')
    as (_ & _ & _ & _ & A5).
  split; [| split].
  - destruct (A3 "Connection refused" eq_refl) as (w' & s' & E & K & C & _).
    exists w', s'. repeat split; assumption.
  - assert (T : (58 <= clock unreachable (clock_reads unreachable)
                       - _connection_epoch omv)%Q)
      by (vm_compute; discriminate).
    assert (E : connect (tick unreachable) omv
                = Ret false (final_world (connect (tick unreachable) omv))
                            (final_api (connect (tick unreachable) omv)))
      by (vm_compute; reflexivity).
    destruct (A4 "system" "info" JNull JNull _ _ (or_introl eq_refl) T E)
      as (Q & K).
    eexists; eexists; split; [exact Q | exact K].
  - assert (C : _connected (snd dropping) = true) by (vm_compute; reflexivity).
    assert (N : _connection (snd dropping) <> None)
      by (vm_compute; discriminate).
    assert (R : next_reply (fst dropping) (_resource (snd dropping))
                  (snd (sent_by_query "system" "info" JNull JNull
                                      (snd dropping)))
                = inl (ConnectionError "Connection refused"))
      by (vm_compute; reflexivity).
    destruct (A5 "system" "info" JNull JNull _ C N R)
      as (w' & s' & E & C' & _ & K).
    exists w', s'. repeat split; assumption.
Defined.
